(** * oz-agent-action: the channel resolver, the argument builder and the
      package locator of [src/agent.ts], embedded in Rocq.

    Strings are [String.string]; a JavaScript string is compared, sliced and
    split here only at ASCII characters (['v'], ['/']), so the byte view and
    the UTF-16 view of the source agree on every operation used.  A thrown
    [Error] is a value of type [error]; code that throws returns a [result].
    The collaborators the action calls ([@actions/core], [@actions/exec],
    [@actions/tool-cache], [@actions/http-client], [process], [os], [path],
    [fs], [URL]) are the fields of a [Host] record, and every call that
    reaches outside the process is recorded, in order, in a trace of
    [event]s. *)

From Stdlib Require Import String Ascii List Bool Arith NArith Lia.
From Stdlib Require Import DecimalString.
Import ListNotations.
Local Open Scope list_scope.
Local Open Scope string_scope.

(** ** JavaScript primitives used by the source *)

Module JS.

(** [if (s)] on a string: the empty string is the only falsy one. *)
Definition truthy (s : string) : bool :=
  match s with
  | EmptyString => false
  | String _ _ => true
  end.

(** [if (x)] on a value of type [string | undefined]. *)
Definition truthy_opt (x : option string) : bool :=
  match x with
  | None => false
  | Some s => truthy s
  end.

(** [s.startsWith(p)]. *)
Definition startsWith (p s : string) : bool := String.prefix p s.

(** [s.slice(n)] for [n >= 0]: [s] without its first [n] characters. *)
Fixpoint slice (n : nat) (s : string) : string :=
  match n, s with
  | O, _ => s
  | S _, EmptyString => EmptyString
  | S m, String _ r => slice m r
  end.

(** [s.split(sep)] for a one-character separator: never the empty list,
    [''.split('/')] is [['']]. *)
Fixpoint split (sep : ascii) (s : string) : list string :=
  match s with
  | EmptyString => [EmptyString]
  | String c r =>
      if Ascii.eqb c sep then EmptyString :: split sep r
      else match split sep r with
           | h :: t => String c h :: t
           | [] => [String c EmptyString]
           end
  end.

(** [`${n}`] for a number that is a natural, and for [undefined]. *)
Definition number_to_string (n : N) : string :=
  NilZero.string_of_uint (N.to_uint n).

Definition template_opt_number (n : option N) : string :=
  match n with
  | Some k => number_to_string k
  | None => "undefined"
  end.

(** [xs[i]] where the index is known to be in range. *)
Definition index (xs : list string) (i : nat) : string := nth i xs "".

End JS.

(** ** Errors

    The source throws [new Error(message)] everywhere.  The constructors name
    the places that throw (the names are those of the specification's error
    kinds) and [message] is the text the source builds at that place. *)

Inductive error : Type :=
| MissingRequiredInput (msg : string)
| UnsupportedChannel (channel : string)
| UnsupportedPlatform (platform : string)
| UnsupportedArchitecture (arch : string)
| RedirectExpected (statusCode : option N)
| MissingRedirectLocation
| InvalidURL (input : string)          (* [new URL(s)] throws a TypeError *)
| ExternalFailure (msg : string).      (* network, file system, process *)

Definition message (e : error) : string :=
  match e with
  | MissingRequiredInput msg => msg
  | UnsupportedChannel channel => "Unsupported channel " ++ channel
  | UnsupportedPlatform platform =>
      "Only Linux runners are supported - the current platform is " ++ platform
  | UnsupportedArchitecture arch => "Unsupported architecture " ++ arch
  | RedirectExpected statusCode =>
      "Expected redirect, got status " ++ JS.template_opt_number statusCode
  | MissingRedirectLocation => "Redirect location header missing"
  | InvalidURL _ => "Invalid URL"
  | ExternalFailure msg => msg
  end.

Inductive result (A : Type) : Type :=
| Ok (a : A)
| Err (e : error).
Arguments Ok {A} a.
Arguments Err {A} e.

(** ** Channel resolver: [resolveCommand], agent.ts 67-76 *)

Definition resolveCommand (channel : string) : result string :=
  if channel =? "stable" then Ok "oz"
  else if channel =? "preview" then Ok "oz-preview"
  else Err (UnsupportedChannel channel).

(** ** Argument builder: [BuildArgsOptions] and [buildArgs], agent.ts 78-145 *)

Record BuildArgsOptions : Type := {
  prompt : string;
  savedPrompt : string;
  skill : string;
  model : string;
  name : string;
  mcp : string;
  cwd : string;
  profile : string;
  outputFormat : string;
  shareRecipients : list string;
  debug : bool
}.

(** [args.push(x, y, ...)]: the pushed elements go to the end, in order. *)
Definition push (args : list string) (xs : list string) : list string :=
  args ++ xs.

(** [for (const recipient of rs) { args.push('--share', recipient) }]. *)
Fixpoint push_shares (args : list string) (rs : list string) : list string :=
  match rs with
  | [] => args
  | recipient :: rest => push_shares (push args ["--share"; recipient]) rest
  end.

Definition buildArgs (opts : BuildArgsOptions) : list string :=
  let args := ["agent"; "run"] in
  let args := if JS.truthy (prompt opts)
              then push args ["--prompt"; prompt opts] else args in
  let args := if JS.truthy (savedPrompt opts)
              then push args ["--saved-prompt"; savedPrompt opts] else args in
  let args := if JS.truthy (skill opts)
              then push args ["--skill"; skill opts] else args in
  let args := if JS.truthy (model opts)
              then push args ["--model"; model opts] else args in
  let args := if JS.truthy (name opts)
              then push args ["--name"; name opts] else args in
  let args := if JS.truthy (mcp opts)
              then push args ["--mcp"; mcp opts] else args in
  let args := if JS.truthy (cwd opts)
              then push args ["--cwd"; cwd opts] else args in
  let args := if JS.truthy (profile opts)
              then push args ["--profile"; profile opts]
              else push args ["--sandboxed"] in
  let args := if JS.truthy (outputFormat opts)
              then push args ["--output-format"; outputFormat opts]
              else args in
  (* [if (opts.shareRecipients)]: an array is always truthy *)
  let args := push_shares args (shareRecipients opts) in
  let args := if debug opts then push args ["--debug"] else args in
  args.

(** ** Effects

    Every call that leaves the process is an [event]; a computation of type
    [M A] extends the trace of events (oldest first) and either returns or
    throws. *)

Inductive event : Type :=
| HttpGet (userAgent : string) (allowRedirects : bool) (url : string)
| CoreInfo (msg : string)
| CoreDebug (msg : string)
| CoreWarning (msg : string)
| GroupStart (title : string)
| GroupEnd
| TcFind (toolName versionSpec : string)
| TcDownloadTool (url : string)
| TcCacheFile (sourceFile targetFile tool version : string)
| ExecExec (commandLine : string) (args : list string)
| ExecGetExecOutput (commandLine : string) (args : list string)
                    (WARP_API_KEY : string)
| SetOutput (key value : string)
| FsExistsSync (path : string)
| FsReadFileSync (path : string).

Definition trace : Type := list event.

Definition M (A : Type) : Type := trace -> result A * trace.

Definition ret {A} (a : A) : M A := fun t => (Ok a, t).

Definition throw {A} (e : error) : M A := fun t => (Err e, t).

Definition bind {A B} (m : M A) (k : A -> M B) : M B :=
  fun t =>
    match m t with
    | (Ok a, t') => k a t'
    | (Err e, t') => (Err e, t')
    end.

(** [try { m } catch (error) { handler(error) }]. *)
Definition try_catch {A} (m : M A) (handler : error -> M A) : M A :=
  fun t =>
    match m t with
    | (Ok a, t') => (Ok a, t')
    | (Err e, t') => handler e t'
    end.

Definition emit (e : event) : M unit := fun t => (Ok tt, (t ++ [e])%list).

(** A synchronous function that may throw, called from [async] code. *)
Definition lift {A} (r : result A) : M A := fun t => (r, t).

(** An external call: the event is recorded, then the collaborator's answer
    ([inl] a failure, [inr] a value) decides between throwing and returning. *)
Definition external {A} (e : event) (answer : string + A) : M A :=
  fun t =>
    match answer with
    | inr a => (Ok a, (t ++ [e])%list)
    | inl msg => (Err (ExternalFailure msg), (t ++ [e])%list)
    end.

Declare Scope agent_scope.
Delimit Scope agent_scope with agent.
Notation "x <- m ;; k" := (bind m (fun x => k))
  (at level 61, m at next level, right associativity) : agent_scope.
Notation "' p <- m ;; k" := (bind m (fun x => match x with p => k end))
  (at level 61, p pattern, m at next level, right associativity) : agent_scope.
Notation "m ;;; k" := (bind m (fun _ => k))
  (at level 61, right associativity) : agent_scope.
Local Open Scope agent_scope.

(** ** The host: everything the action reads or calls *)

(** [response.message] of [@actions/http-client]: the fields the source reads. *)
Record Response : Type := {
  statusCode : option N;               (* [number | undefined] *)
  headers_location : option string     (* [headers['location']] *)
}.

Record Host : Type := {
  process_platform : string;
  process_arch : string;
  process_env_XDG_STATE_DIR : option string;
  os_homedir : string;
  path_join : list string -> string;
  (* [new URL(s).pathname]; [None] when the constructor throws *)
  URL_pathname : string -> option string;
  core_getInput : string -> string;
  core_getMultilineInput : string -> list string;
  core_isDebug : bool;
  http_get : string -> string + Response;
  tc_find : string -> string -> string;
  tc_downloadTool : string -> string + string;
  tc_cacheFile : string -> string -> string -> string -> string + string;
  exec_exec : string -> list string -> string + N;
  (* the captured [stdout] of a run that exits with status 0 *)
  exec_getExecOutput : string -> list string -> string -> string + string;
  fs_existsSync : string -> bool;
  (* [inl] carries [`${error}`] of the error thrown *)
  fs_readFileSync : string -> string + string
}.

(** [core.group(title, fn)]: the group is closed in a [finally]. *)
Definition core_group {A} (title : string) (fn : M A) : M A :=
  fun t =>
    let (r, t') := fn (t ++ [GroupStart title])%list in
    (r, (t' ++ [GroupEnd])%list).

(** ** Package locator: [downloadOzDeb], agent.ts 159-224 *)

(** Lines 170-178: the pair [(arch, debArch)] of the host architecture. *)
Definition hostArch (h : Host) : result (string * string) :=
  if process_arch h =? "x64" then Ok ("x86_64", "amd64")
  else if process_arch h =? "arm64" then Ok ("aarch64", "arm64")
  else Err (UnsupportedArchitecture (process_arch h)).

Definition redirectEndpoint (arch channel : string) : string :=
  "https://app.warp.dev/download/cli?os=linux&package=deb&arch=" ++ arch
  ++ "&channel=" ++ channel.

(** Line 193: [url.pathname.split('/').filter((c) => c)]. *)
Definition pathComponents (pathname : string) : list string :=
  filter JS.truthy (JS.split "/" pathname).

(** Lines 181-202, the [version === 'latest'] branch: the download URL and
    the resolved version. *)
Definition resolveLatest (h : Host) (arch channel version : string)
  : M (string * string) :=
  response <- external (HttpGet "oz-action" false (redirectEndpoint arch channel))
                       (http_get h (redirectEndpoint arch channel)) ;;
  '(debUrl, version) <-
    (if match statusCode response with
        | Some c => (c =? 302)%N || (c =? 301)%N
        | None => false
        end
     then
       match headers_location response with
       | Some location =>
           if negb (JS.truthy location) then throw MissingRedirectLocation
           else
             let debUrl := location in
             match URL_pathname h debUrl with
             | None => throw (InvalidURL debUrl)
             | Some pathname =>
                 let components := pathComponents pathname in
                 let version :=
                   if (2 <=? List.length components)%nat then JS.index components 1
                   else version in
                 ret (debUrl, version)
             end
       | None => throw MissingRedirectLocation
       end
     else throw (RedirectExpected (statusCode response))) ;;
  emit (CoreInfo ("Latest version on " ++ channel ++ " is " ++ version)) ;;;
  ret (debUrl, version).

(** Lines 204-210: the pair [(debVersion, version)] of a concrete version. *)
Definition normalizeVersion (version : string) : string * string :=
  if JS.startsWith "v" version then (JS.slice 1 version, version)
  else (version, "v" ++ version).

(** Line 211. *)
Definition releaseUrl (channel version debVersion debArch : string) : string :=
  "https://releases.warp.dev/" ++ channel ++ "/" ++ version ++ "/oz_"
  ++ channel ++ "_" ++ debVersion ++ "_" ++ debArch ++ ".deb".

(** Lines 180-212: the download URL and the resolved version. *)
Definition resolveVersion (h : Host) (arch debArch channel version : string)
  : M (string * string) :=
  if version =? "latest" then resolveLatest h arch channel version
  else
    let '(debVersion, version) := normalizeVersion version in
    ret (releaseUrl channel version debVersion debArch, version).

(** Lines 214-223: the cache lookup, the download on a miss, the path. *)
Definition cachedPackage (h : Host) (channel version debUrl : string)
  : M string :=
  let cacheVersion := channel ++ "-" ++ version in
  cachedDeb <- external (TcFind "oz" cacheVersion)
                        (inr (tc_find h "oz" cacheVersion)) ;;
  cachedDeb <-
    (if negb (JS.truthy cachedDeb) then
       emit (CoreDebug ("Downloading from " ++ debUrl ++ "...")) ;;;
       downloadedDeb <- external (TcDownloadTool debUrl)
                                 (tc_downloadTool h debUrl) ;;
       external (TcCacheFile downloadedDeb "oz.deb" "oz" cacheVersion)
                (tc_cacheFile h downloadedDeb "oz.deb" "oz" cacheVersion)
     else
       emit (CoreDebug "Using cached .deb package") ;;;
       ret cachedDeb) ;;
  ret (path_join h [cachedDeb; "oz.deb"]).

Definition downloadOzDeb (h : Host) (channel version : string) : M string :=
  if negb (process_platform h =? "linux") then
    throw (UnsupportedPlatform (process_platform h))
  else
    '(arch, debArch) <- lift (hostArch h) ;;
    '(debUrl, version) <- resolveVersion h arch debArch channel version ;;
    cachedPackage h channel version debUrl.

(** ** [installOz], agent.ts 148-155 *)

Definition installOz (h : Host) (channel version : string) : M unit :=
  core_group "Installing Oz"
    (ozDeb <- downloadOzDeb h channel version ;;
     _ <- external (ExecExec "sudo" ["dpkg"; "-i"; ozDeb])
                   (exec_exec h "sudo" ["dpkg"; "-i"; ozDeb]) ;;
     _ <- external (ExecExec "sudo" ["apt-get"; "-f"; "install"])
                   (exec_exec h "sudo" ["apt-get"; "-f"; "install"]) ;;
     ret tt).

(** ** [logOzLogFile], agent.ts 227-245 *)

Definition logOzLogFile (h : Host) (channel : string) : M unit :=
  let stateDir :=
    if JS.truthy_opt (process_env_XDG_STATE_DIR h)
    then match process_env_XDG_STATE_DIR h with Some d => d | None => "" end
    else path_join h [os_homedir h; ".local"; "state"] in
  let channelSuffix := if channel =? "stable" then "" else "-" ++ channel in
  let logFileName :=
    if channel =? "stable" then "warp.log" else "warp_" ++ channel ++ ".log" in
  let warpLogPath :=
    path_join h [stateDir; "warp-terminal" ++ channelSuffix; logFileName] in
  exists_ <- external (FsExistsSync warpLogPath)
                      (inr (fs_existsSync h warpLogPath)) ;;
  if (exists_ : bool) then
    core_group "Warp Logs"
      (fun t =>
         match fs_readFileSync h warpLogPath with
         | inr logContents =>
             emit (CoreInfo logContents) (t ++ [FsReadFileSync warpLogPath])%list
         | inl error =>
             emit (CoreWarning ("Failed to read warp.log: " ++ error))
                  (t ++ [FsReadFileSync warpLogPath])%list
         end)
  else emit (CoreWarning ("warp.log not found at " ++ warpLogPath)).

(** ** Orchestration: [runAgent], agent.ts 12-64 *)

(** Lines 31-63: what [runAgent] does once its two input checks passed. *)
Definition runChecked (h : Host)
    (channel prompt savedPrompt skill model name mcp apiKey : string)
  : M unit :=
  command <- lift (resolveCommand channel) ;;
  installOz h channel (core_getInput h "oz_version") ;;;
  let args := buildArgs {|
    prompt := prompt;
    savedPrompt := savedPrompt;
    skill := skill;
    model := model;
    name := name;
    mcp := mcp;
    cwd := core_getInput h "cwd";
    profile := core_getInput h "profile";
    outputFormat := core_getInput h "output_format";
    shareRecipients := core_getMultilineInput h "share";
    debug := core_isDebug h
  |} in
  stdout <- try_catch
              (external (ExecGetExecOutput command args apiKey)
                        (exec_getExecOutput h command args apiKey))
              (fun error => logOzLogFile h channel ;;; throw error) ;;
  emit (SetOutput "agent_output" stdout).

Definition runAgent (h : Host) : M unit :=
  let channel := core_getInput h "oz_channel" in
  let prompt := core_getInput h "prompt" in
  let savedPrompt := core_getInput h "saved_prompt" in
  let skill := core_getInput h "skill" in
  let model := core_getInput h "model" in
  let name := core_getInput h "name" in
  let mcp := core_getInput h "mcp" in
  if negb (JS.truthy prompt) && negb (JS.truthy savedPrompt)
     && negb (JS.truthy skill)
  then throw (MissingRequiredInput
                "Either `prompt`, `saved_prompt`, or `skill` must be provided")
  else
    let apiKey := core_getInput h "warp_api_key" in
    if negb (JS.truthy apiKey)
    then throw (MissingRequiredInput "`warp_api_key` must be provided.")
    else runChecked h channel prompt savedPrompt skill model name mcp apiKey.

(** ** The documented argument sequence

    [argumentList] follows the wording of the specification (the twelve
    steps of its Argument Builder section); [buildArgs] above follows the
    source.  The two are compared below. *)

Definition optionalPair (flag value : string) : list string :=
  if JS.truthy value then [flag; value] else [].

Definition profileBranch (opts : BuildArgsOptions) : list string :=
  if JS.truthy (profile opts) then ["--profile"; profile opts]
  else ["--sandboxed"].

Definition sharePairs (recipients : list string) : list string :=
  flat_map (fun recipient => ["--share"; recipient]) recipients.

Definition debugToken (opts : BuildArgsOptions) : list string :=
  if debug opts then ["--debug"] else [].

(** Steps 1 to 8: what precedes the profile/sandboxed branch. *)
Definition leadingArgs (opts : BuildArgsOptions) : list string :=
  ["agent"; "run"]
  ++ optionalPair "--prompt" (prompt opts)
  ++ optionalPair "--saved-prompt" (savedPrompt opts)
  ++ optionalPair "--skill" (skill opts)
  ++ optionalPair "--model" (model opts)
  ++ optionalPair "--name" (name opts)
  ++ optionalPair "--mcp" (mcp opts)
  ++ optionalPair "--cwd" (cwd opts).

Definition argumentList (opts : BuildArgsOptions) : list string :=
  leadingArgs opts
  ++ profileBranch opts
  ++ optionalPair "--output-format" (outputFormat opts)
  ++ sharePairs (shareRecipients opts)
  ++ debugToken opts.

(** The strings the caller supplies: every string field and every recipient. *)
Definition suppliedValues (opts : BuildArgsOptions) : list string :=
  [prompt opts; savedPrompt opts; skill opts; model opts; name opts;
   mcp opts; cwd opts; profile opts; outputFormat opts]
  ++ shareRecipients opts.

(** [x] immediately followed by [y] somewhere in the list. *)
Fixpoint containsPair (x y : string) (l : list string) : bool :=
  match l with
  | a :: tl =>
      match tl with
      | b :: _ => ((a =? x) && (b =? y)) || containsPair x y tl
      | [] => false
      end
  | [] => false
  end.

(** The head of a list, when there is one, is a non-empty string. *)
Definition headTruthy (l : list string) : bool :=
  match l with
  | [] => true
  | b :: _ => JS.truthy b
  end.

(** [args.includes(x)], the test suite's [toContain]. *)
Definition contains (x : string) (l : list string) : bool :=
  existsb (String.eqb x) l.

(** The number of elements equal to [x]. *)
Definition occurrences (x : string) (l : list string) : nat :=
  count_occ string_dec l x.

(** ** Hosts to run the embedding on *)

Module Sample.

(** The suffix of [s] that starts at the first [c], empty when there is
    none. *)
Fixpoint from_first (c : ascii) (s : string) : string :=
  match s with
  | EmptyString => EmptyString
  | String a r => if Ascii.eqb a c then s else from_first c r
  end.

(** The prefix of [s] before its first ['?'] or ['#']. *)
Fixpoint before_query (s : string) : string :=
  match s with
  | EmptyString => EmptyString
  | String a r =>
      if Ascii.eqb a "?" || Ascii.eqb a "#" then EmptyString
      else String a (before_query r)
  end.

(** [new URL(s).pathname] on the URLs the sample hosts see: an [https]
    URL with a plain host name and a path without dot segments or
    escapes.  A string without the scheme is not an absolute URL and the
    constructor throws. *)
Definition https_pathname (s : string) : option string :=
  if JS.startsWith "https://" s then
    let p := before_query (from_first "/" (JS.slice 8 s)) in
    Some (if JS.truthy p then p else "/")
  else None.

(** [path.join] on absolute directory names without dot segments. *)
Definition join (parts : list string) : string :=
  String.concat "/" (filter JS.truthy parts).

Definition inputs (name : string) : string :=
  if name =? "oz_channel" then "stable"
  else if name =? "oz_version" then "latest"
  else if name =? "prompt" then "fix the bug"
  else if name =? "warp_api_key" then "wk-1"
  else "".

Definition latestUrl : string :=
  "https://releases.warp.dev/stable/v0.2025.06.04/oz_stable_0.2025.06.04_amd64.deb".

(** A Linux x64 runner with an empty tool cache, a redirect endpoint that
    answers 302 and collaborators that succeed. *)
Definition runner : Host := {|
  process_platform := "linux";
  process_arch := "x64";
  process_env_XDG_STATE_DIR := None;
  os_homedir := "/home/runner";
  path_join := join;
  URL_pathname := https_pathname;
  core_getInput := inputs;
  core_getMultilineInput := fun _ => [];
  core_isDebug := false;
  http_get := fun _ =>
    inr {| statusCode := Some 302%N; headers_location := Some latestUrl |};
  tc_find := fun _ _ => "";
  tc_downloadTool := fun _ => inr "/tmp/dl-1";
  tc_cacheFile := fun _ _ tool version =>
    inr ("/opt/hostedtoolcache/" ++ tool ++ "/" ++ version ++ "/x64");
  exec_exec := fun _ _ => inr 0%N;
  exec_getExecOutput := fun _ _ _ => inr "done";
  fs_existsSync := fun _ => false;
  fs_readFileSync := fun _ => inl "Error: ENOENT"
|}.

(** [runner] with other inputs. *)
Definition with_inputs (h : Host) (f : string -> string) : Host := {|
  process_platform := process_platform h;
  process_arch := process_arch h;
  process_env_XDG_STATE_DIR := process_env_XDG_STATE_DIR h;
  os_homedir := os_homedir h;
  path_join := path_join h;
  URL_pathname := URL_pathname h;
  core_getInput := f;
  core_getMultilineInput := core_getMultilineInput h;
  core_isDebug := core_isDebug h;
  http_get := http_get h;
  tc_find := tc_find h;
  tc_downloadTool := tc_downloadTool h;
  tc_cacheFile := tc_cacheFile h;
  exec_exec := exec_exec h;
  exec_getExecOutput := exec_getExecOutput h;
  fs_existsSync := fs_existsSync h;
  fs_readFileSync := fs_readFileSync h
|}.

(** [h] on another platform and architecture. *)
Definition on_machine (h : Host) (platform arch : string) : Host := {|
  process_platform := platform;
  process_arch := arch;
  process_env_XDG_STATE_DIR := process_env_XDG_STATE_DIR h;
  os_homedir := os_homedir h;
  path_join := path_join h;
  URL_pathname := URL_pathname h;
  core_getInput := core_getInput h;
  core_getMultilineInput := core_getMultilineInput h;
  core_isDebug := core_isDebug h;
  http_get := http_get h;
  tc_find := tc_find h;
  tc_downloadTool := tc_downloadTool h;
  tc_cacheFile := tc_cacheFile h;
  exec_exec := exec_exec h;
  exec_getExecOutput := exec_getExecOutput h;
  fs_existsSync := fs_existsSync h;
  fs_readFileSync := fs_readFileSync h
|}.

(** [h] with another answer of the redirect endpoint. *)
Definition answering (h : Host) (r : Response) : Host := {|
  process_platform := process_platform h;
  process_arch := process_arch h;
  process_env_XDG_STATE_DIR := process_env_XDG_STATE_DIR h;
  os_homedir := os_homedir h;
  path_join := path_join h;
  URL_pathname := URL_pathname h;
  core_getInput := core_getInput h;
  core_getMultilineInput := core_getMultilineInput h;
  core_isDebug := core_isDebug h;
  http_get := fun _ => inr r;
  tc_find := tc_find h;
  tc_downloadTool := tc_downloadTool h;
  tc_cacheFile := tc_cacheFile h;
  exec_exec := exec_exec h;
  exec_getExecOutput := exec_getExecOutput h;
  fs_existsSync := fs_existsSync h;
  fs_readFileSync := fs_readFileSync h
|}.

(** [h] with a tool cache that already holds every version in [dir]. *)
Definition cached (h : Host) (dir : string) : Host := {|
  process_platform := process_platform h;
  process_arch := process_arch h;
  process_env_XDG_STATE_DIR := process_env_XDG_STATE_DIR h;
  os_homedir := os_homedir h;
  path_join := path_join h;
  URL_pathname := URL_pathname h;
  core_getInput := core_getInput h;
  core_getMultilineInput := core_getMultilineInput h;
  core_isDebug := core_isDebug h;
  http_get := http_get h;
  tc_find := fun _ _ => dir;
  tc_downloadTool := tc_downloadTool h;
  tc_cacheFile := tc_cacheFile h;
  exec_exec := exec_exec h;
  exec_getExecOutput := exec_getExecOutput h;
  fs_existsSync := fs_existsSync h;
  fs_readFileSync := fs_readFileSync h
|}.

Definition defaultOpts : BuildArgsOptions := {|
  prompt := ""; savedPrompt := ""; skill := ""; model := ""; name := "";
  mcp := ""; cwd := ""; profile := ""; outputFormat := "";
  shareRecipients := []; debug := false
|}.

End Sample.

(** ** The documented version normalization

    These two follow the wording of the specification; [normalizeVersion]
    above follows the source. *)

(** The version string with a leading [v] stripped. *)
Definition packageVersion (version : string) : string :=
  match version with
  | String "v" rest => rest
  | _ => version
  end.

(** The version string with a leading [v] guaranteed present. *)
Definition tagVersion (version : string) : string :=
  match version with
  | String "v" _ => version
  | _ => String "v" version
  end.

(** ** Inputs used in the examples below *)

Module Inputs.

(** A profile is set and the prompt is the text [--sandboxed]. *)
Definition sandboxedPrompt : BuildArgsOptions := {|
  prompt := "--sandboxed"; savedPrompt := ""; skill := ""; model := "";
  name := ""; mcp := ""; cwd := ""; profile := "prod"; outputFormat := "";
  shareRecipients := []; debug := false
|}.

(** One recipient, and the prompt is the text [--share]. *)
Definition sharePrompt : BuildArgsOptions := {|
  prompt := "--share"; savedPrompt := ""; skill := ""; model := "";
  name := ""; mcp := ""; cwd := ""; profile := ""; outputFormat := "";
  shareRecipients := ["a@x.com"]; debug := false
|}.

(** The redirect endpoint answers 302 with a relative [Location]. *)
Definition relativeRedirect : Response := {|
  statusCode := Some 302%N;
  headers_location := Some "/stable/v0.2025.06.04/oz_stable_0.2025.06.04_amd64.deb"
|}.

(** The redirect endpoint answers 302 with a one-segment path. *)
Definition shortRedirect : Response := {|
  statusCode := Some 302%N;
  headers_location := Some "https://releases.warp.dev/oz.deb"
|}.

End Inputs.

(** ** Which errors a computation can throw *)

(** Every error [m] throws, from whatever trace it starts, satisfies [P]. *)
Definition throws_only {A} (P : error -> Prop) (m : M A) : Prop :=
  forall t e t', m t = (Err e, t') -> P e.

Definition not_input_error (e : error) : Prop :=
  forall msg, e <> MissingRequiredInput msg.

(** The errors of the collaborators: network, file system, process. *)
Definition external_error (e : error) : Prop :=
  exists msg, e = ExternalFailure msg.

(** ** Which events a computation can emit *)

(** Whatever [m] returns or throws, it leaves the trace it started from in
    place and adds to it only events accepted by [q]. *)
Definition emits_only {A} (q : event -> bool) (m : M A) : Prop :=
  forall t r t',
    m t = (r, t') ->
    exists added, t' = (t ++ added)%list /\ forallb q added = true.

(** The events of the package locator: the redirect request, the tool cache
    and the log lines it writes. *)
Definition locator_event (e : event) : bool :=
  match e with
  | HttpGet _ _ _ | CoreInfo _ | CoreDebug _
  | TcFind _ _ | TcDownloadTool _ | TcCacheFile _ _ _ _ => true
  | _ => false
  end.

Definition not_http (e : event) : bool :=
  match e with
  | HttpGet _ _ _ => false
  | _ => true
  end.

Definition not_output (e : event) : bool :=
  match e with
  | SetOutput _ _ => false
  | _ => true
  end.

(** The events of the installation: those of the locator, the two [sudo]
    commands and the log group around them. *)
Definition install_event (e : event) : bool :=
  match e with
  | ExecExec _ _ | GroupStart _ | GroupEnd => true
  | _ => locator_event e
  end.

(** The events of the log dump: the file system and the log. *)
Definition diagnostic_event (e : event) : bool :=
  match e with
  | FsExistsSync _ | FsReadFileSync _ | CoreInfo _ | CoreWarning _
  | GroupStart _ | GroupEnd => true
  | _ => false
  end.

(** ** Auxiliary notions for the properties of strings and lists *)

(** [s.includes(c)] for a character [c]. *)
Fixpoint contains_char (c : ascii) (s : string) : bool :=
  match s with
  | EmptyString => false
  | String a r => Ascii.eqb a c || contains_char c r
  end.

(** The head of a list, when there is one, is one of [flags]. *)
Definition headIn (flags : list string) (l : list string) : bool :=
  match l with
  | [] => true
  | x :: _ => existsb (String.eqb x) flags
  end.

(** The flags [buildArgs] can push, in the order of its steps. *)
Definition allFlags : list string :=
  ["--prompt"; "--saved-prompt"; "--skill"; "--model"; "--name"; "--mcp";
   "--cwd"; "--profile"; "--sandboxed"; "--output-format"; "--share";
   "--debug"].

Definition otherFlags (flag : string) : list string :=
  filter (fun f => negb (f =? flag)) allFlags.

(** ** The path of the log file: agent.ts 228-231

    The value [logOzLogFile] binds to [warpLogPath]. *)
Definition warpLogPath (h : Host) (channel : string) : string :=
  let stateDir :=
    if JS.truthy_opt (process_env_XDG_STATE_DIR h)
    then match process_env_XDG_STATE_DIR h with Some d => d | None => "" end
    else path_join h [os_homedir h; ".local"; "state"] in
  let channelSuffix := if channel =? "stable" then "" else "-" ++ channel in
  let logFileName :=
    if channel =? "stable" then "warp.log" else "warp_" ++ channel ++ ".log" in
  path_join h [stateDir; "warp-terminal" ++ channelSuffix; logFileName].

(** ** The entry point: index.ts 1-12

    What the action does when it is run: the effects of [runAgent] from the
    empty trace and, when [runAgent] throws, [core.setFailed] with the
    message of the error.  Every error of the embedding is an [Error]
    object, so the [String(error)] alternative of the source is never
    taken. *)

Inductive action_event : Type :=
| AgentEvent (e : event)
| CoreSetFailed (message : string).

Definition main (h : Host) : list action_event :=
  match runAgent h [] with
  | (Ok _, t) => map AgentEvent t
  | (Err error, t) => (map AgentEvent t ++ [CoreSetFailed (message error)])%list
  end.

(** ** The options [runAgent] builds: agent.ts 35-47 *)

Definition actionOptions (h : Host) : BuildArgsOptions := {|
  prompt := core_getInput h "prompt";
  savedPrompt := core_getInput h "saved_prompt";
  skill := core_getInput h "skill";
  model := core_getInput h "model";
  name := core_getInput h "name";
  mcp := core_getInput h "mcp";
  cwd := core_getInput h "cwd";
  profile := core_getInput h "profile";
  outputFormat := core_getInput h "output_format";
  shareRecipients := core_getMultilineInput h "share";
  debug := core_isDebug h
|}.

Definition is_set_failed (e : action_event) : bool :=
  match e with
  | CoreSetFailed _ => true
  | AgentEvent _ => false
  end.

Definition is_set_output (e : action_event) : bool :=
  match e with
  | AgentEvent (SetOutput _ _) => true
  | _ => false
  end.

(** ** More hosts to run the embedding on *)

Module Hosts.

(** A Linux x64 runner asked for version 1.2.3, which its tool cache holds;
    the agent exits with status 1 and has left a log file. *)
Definition crashing : Host := {|
  process_platform := "linux"; process_arch := "x64";
  process_env_XDG_STATE_DIR := Some "/state"; os_homedir := "/root";
  path_join := Sample.join; URL_pathname := Sample.https_pathname;
  core_getInput := fun name =>
    if name =? "oz_version" then "1.2.3" else Sample.inputs name;
  core_getMultilineInput := fun _ => []; core_isDebug := false;
  http_get := fun _ => inl "unreachable";
  tc_find := fun _ _ => "/opt/c";
  tc_downloadTool := fun _ => inl "unreachable";
  tc_cacheFile := fun _ _ _ _ => inl "unreachable";
  exec_exec := fun _ _ => inr 0%N;
  exec_getExecOutput := fun _ _ _ =>
    inl "The process '/usr/bin/oz' failed with exit code 1";
  fs_existsSync := fun _ => true;
  fs_readFileSync := fun _ => inr "panic"
|}.

(** An arm64 runner that cannot reach the redirect endpoint. *)
Definition offline : Host := {|
  process_platform := "linux"; process_arch := "arm64";
  process_env_XDG_STATE_DIR := None; os_homedir := "/home/runner";
  path_join := Sample.join; URL_pathname := Sample.https_pathname;
  core_getInput := Sample.inputs;
  core_getMultilineInput := fun _ => []; core_isDebug := false;
  http_get := fun _ => inl "connect ETIMEDOUT";
  tc_find := fun _ _ => ""; tc_downloadTool := fun _ => inr "/tmp/dl-1";
  tc_cacheFile := fun _ _ _ _ => inr "/opt/hostedtoolcache/oz";
  exec_exec := fun _ _ => inr 0%N;
  exec_getExecOutput := fun _ _ _ => inr "done";
  fs_existsSync := fun _ => false;
  fs_readFileSync := fun _ => inl "Error: ENOENT"
|}.

End Hosts.

(** * Properties *)

(** ** Lists of arguments *)

Lemma push_shares_app (rs args : list string) :
  push_shares args rs = (args ++ sharePairs rs)%list.
Proof.
  revert args.
  induction rs as [|r rs IH]; intros args; simpl.
  - now rewrite app_nil_r.
  - rewrite IH. unfold push. now rewrite <- app_assoc.
Qed.

Lemma if_push (b : bool) (args xs : list string) :
  (if b then push args xs else args) = (args ++ (if b then xs else []))%list.
Proof.
  destruct b; unfold push; [reflexivity | now rewrite app_nil_r].
Qed.

Lemma if_push_else (b : bool) (args xs ys : list string) :
  (if b then push args xs else push args ys)
  = (args ++ (if b then xs else ys))%list.
Proof.
  destruct b; reflexivity.
Qed.

(** The source's sequence of pushes, flattened. *)
Lemma buildArgs_unfold (opts : BuildArgsOptions) :
  buildArgs opts
  = (leadingArgs opts ++ profileBranch opts
     ++ optionalPair "--output-format" (outputFormat opts)
     ++ sharePairs (shareRecipients opts) ++ debugToken opts)%list.
Proof.
  unfold buildArgs, leadingArgs, profileBranch, optionalPair, debugToken.
  cbv zeta.
  rewrite (if_push (debug opts)), push_shares_app.
  rewrite (if_push (JS.truthy (outputFormat opts))).
  rewrite (if_push_else (JS.truthy (profile opts))).
  rewrite !if_push.
  rewrite <- !app_assoc. reflexivity.
Qed.

(** *** C1 *)

(** C1.  For every options record [buildArgs] returns exactly the documented
    sequence: [agent], [run]; the flag/value pair of each non-empty field in
    the order prompt, saved prompt, skill, model, name, mcp, cwd; the
    profile/sandboxed branch; the output-format pair when non-empty; one
    [--share], recipient pair per recipient in input order; [--debug] when
    debug is set; and nothing else. *)
Theorem buildArgs_is_argumentList (opts : BuildArgsOptions) :
  buildArgs opts = argumentList opts.
Proof.
  rewrite buildArgs_unfold. unfold argumentList. reflexivity.
Qed.

(** *** Membership, adjacency and counting in the flattened sequence *)

Lemma truthy_eqb_empty (s : string) : JS.truthy s = true -> (s =? "") = false.
Proof.
  destruct s; [discriminate | reflexivity].
Qed.

Lemma eqb_falsy (x v : string) :
  JS.truthy x = true -> JS.truthy v = false -> (x =? v) = false.
Proof.
  destruct v; [|discriminate]. intros Hx _.
  now apply truthy_eqb_empty.
Qed.

Lemma contains_app (x : string) (l1 l2 : list string) :
  contains x (l1 ++ l2) = contains x l1 || contains x l2.
Proof.
  unfold contains. apply existsb_app.
Qed.

Lemma contains_In (x : string) (l : list string) :
  contains x l = true <-> In x l.
Proof.
  unfold contains. rewrite existsb_exists. split.
  - intros [y [Hin Heq]]. apply String.eqb_eq in Heq. now subst.
  - intros Hin. exists x. split; [assumption | apply String.eqb_refl].
Qed.

Lemma contains_optionalPair (x flag v : string) :
  JS.truthy x = true -> (x =? flag) = false ->
  contains x (optionalPair flag v) = (x =? v).
Proof.
  intros Hx Hflag. unfold optionalPair, contains.
  destruct (JS.truthy v) eqn:Hv; simpl.
  - now rewrite Hflag, orb_false_r.
  - symmetry. now apply eqb_falsy.
Qed.

Lemma contains_sharePairs (x : string) (rs : list string) :
  (x =? "--share") = false -> contains x (sharePairs rs) = contains x rs.
Proof.
  intros Hx. unfold contains.
  induction rs as [|r rs IH]; simpl; [reflexivity|].
  now rewrite Hx, IH.
Qed.

Lemma containsPair_here (x y : string) (l1 l2 : list string) :
  containsPair x y (l1 ++ x :: y :: l2) = true.
Proof.
  induction l1 as [|a l1 IH].
  - simpl. now rewrite !String.eqb_refl.
  - change ((a :: l1) ++ x :: y :: l2)%list with (a :: (l1 ++ x :: y :: l2))%list.
    simpl containsPair. rewrite IH.
    destruct (l1 ++ x :: y :: l2)%list eqn:E.
    + destruct l1; discriminate.
    + apply orb_true_r.
Qed.

Lemma containsPair_skip (x : string) (l1 l2 : list string) :
  forallb JS.truthy l1 = true -> headTruthy l2 = true ->
  containsPair x "" (l1 ++ l2) = containsPair x "" l2.
Proof.
  intros H1 H2.
  induction l1 as [|a l1 IH]; [reflexivity|].
  simpl in H1. apply andb_prop in H1 as [_ H1]. specialize (IH H1).
  change ((a :: l1) ++ l2)%list with (a :: (l1 ++ l2))%list.
  simpl containsPair.
  destruct (l1 ++ l2)%list as [|b rest] eqn:E.
  - destruct l1; [|discriminate]. simpl in E. subst l2. reflexivity.
  - assert (Hb : JS.truthy b = true).
    { destruct l1 as [|c l1].
      - simpl in E. subst l2. exact H2.
      - simpl in E. injection E as -> _. simpl in H1.
        now apply andb_prop in H1 as [H1 _]. }
    rewrite (truthy_eqb_empty b Hb), andb_false_r. exact IH.
Qed.

Lemma headTruthy_sharePairs (rs tail : list string) :
  headTruthy tail = true -> headTruthy (sharePairs rs ++ tail) = true.
Proof.
  destruct rs; [trivial | reflexivity].
Qed.

Lemma containsPair_sharePairs (x : string) (rs tail : list string) :
  (x =? "--share") = false -> headTruthy tail = true ->
  containsPair x "" (sharePairs rs ++ tail) = containsPair x "" tail.
Proof.
  intros Hx Htail.
  induction rs as [|r rs IH]; [reflexivity|].
  change (sharePairs (r :: rs) ++ tail)%list
    with ("--share" :: r :: (sharePairs rs ++ tail))%list.
  pose proof (headTruthy_sharePairs rs tail Htail) as Hhead.
  cbn [containsPair].
  rewrite (String.eqb_sym "--share" x), Hx. cbn [andb orb].
  destruct (sharePairs rs ++ tail)%list as [|b rest] eqn:E.
  - destruct rs; [|discriminate]. simpl in E. subst tail. reflexivity.
  - simpl in Hhead.
    rewrite (truthy_eqb_empty b Hhead), andb_false_r. exact IH.
Qed.

Lemma forallb_truthy_optionalPair (flag v : string) :
  JS.truthy flag = true -> forallb JS.truthy (optionalPair flag v) = true.
Proof.
  intros Hf. unfold optionalPair.
  destruct (JS.truthy v) eqn:Hv; simpl; [now rewrite Hf, Hv | reflexivity].
Qed.

Lemma occurrences_app (x : string) (l1 l2 : list string) :
  occurrences x (l1 ++ l2) = occurrences x l1 + occurrences x l2.
Proof.
  unfold occurrences. apply count_occ_app.
Qed.

Lemma occurrences_optionalPair (x flag v : string) :
  JS.truthy x = true -> flag <> x ->
  occurrences x (optionalPair flag v) = occurrences x [v].
Proof.
  intros Hx Hflag. unfold optionalPair, occurrences.
  destruct v as [|c v]; cbn [JS.truthy].
  - rewrite count_occ_cons_neq; [reflexivity|].
    intros <-. discriminate.
  - now rewrite count_occ_cons_neq.
Qed.

Lemma occurrences_sharePairs (rs : list string) :
  occurrences "--share" (sharePairs rs)
  = List.length rs + occurrences "--share" rs.
Proof.
  unfold occurrences.
  induction rs as [|r rs IH]; [reflexivity|].
  change (sharePairs (r :: rs)) with ("--share" :: r :: sharePairs rs)%list.
  rewrite count_occ_cons_eq by reflexivity.
  destruct (string_dec r "--share") as [E|E].
  - rewrite !(count_occ_cons_eq _ _ E), IH. cbn [List.length]. lia.
  - rewrite !(count_occ_cons_neq _ _ E), IH. cbn [List.length]. lia.
Qed.

Lemma leadingArgs_truthy (opts : BuildArgsOptions) :
  forallb JS.truthy (leadingArgs opts) = true.
Proof.
  unfold leadingArgs.
  rewrite !forallb_app, !forallb_truthy_optionalPair by reflexivity.
  reflexivity.
Qed.

Lemma contains_leadingArgs (x : string) (opts : BuildArgsOptions) :
  JS.truthy x = true ->
  contains x ["agent"; "run"; "--prompt"; "--saved-prompt"; "--skill";
              "--model"; "--name"; "--mcp"; "--cwd"] = false ->
  contains x (leadingArgs opts)
  = contains x [prompt opts; savedPrompt opts; skill opts; model opts;
                name opts; mcp opts; cwd opts].
Proof.
  intros Hx Hflags. unfold leadingArgs.
  cbn [contains existsb] in Hflags.
  repeat (apply orb_false_elim in Hflags as [? Hflags]).
  rewrite !contains_app, !contains_optionalPair by assumption.
  cbn [contains existsb].
  repeat match goal with H : (x =? _) = false |- _ => rewrite H; clear H end.
  rewrite !orb_false_r. reflexivity.
Qed.

(** *** C2 *)

(** C2, as the source has it.  The ninth step of [buildArgs] is one
    two-way branch: it contributes [--profile], profile when the profile is
    non-empty and the single token [--sandboxed] when it is empty, never
    both and never neither.  The returned list contains [--profile]
    immediately followed by the profile if and only if the profile is
    non-empty.  It contains the string [--sandboxed] if and only if the
    profile is empty or one of the strings supplied by the caller (a string
    field or a share recipient) is itself [--sandboxed]: field contents are
    passed through unchecked. *)
Theorem profile_branch_exclusive (opts : BuildArgsOptions) :
  buildArgs opts
  = (leadingArgs opts
     ++ (if JS.truthy (profile opts)
         then ["--profile"; profile opts] else ["--sandboxed"])
     ++ optionalPair "--output-format" (outputFormat opts)
     ++ sharePairs (shareRecipients opts) ++ debugToken opts)%list
  /\ containsPair "--profile" (profile opts) (buildArgs opts)
     = JS.truthy (profile opts)
  /\ contains "--sandboxed" (buildArgs opts)
     = negb (JS.truthy (profile opts))
       || contains "--sandboxed" (suppliedValues opts).
Proof.
  split; [exact (buildArgs_unfold opts)|].
  rewrite buildArgs_unfold. split.
  - unfold profileBranch.
    destruct (JS.truthy (profile opts)) eqn:Hp.
    + apply containsPair_here.
    + assert (E : profile opts = "") by (destruct (profile opts); [reflexivity | discriminate]).
      rewrite E.
      rewrite app_assoc, app_assoc.
      rewrite containsPair_skip.
      * rewrite containsPair_sharePairs
          by (unfold debugToken; destruct (debug opts); reflexivity).
        unfold debugToken. destruct (debug opts); reflexivity.
      * rewrite !forallb_app, leadingArgs_truthy.
        now rewrite forallb_truthy_optionalPair.
      * apply headTruthy_sharePairs.
        unfold debugToken. destruct (debug opts); reflexivity.
  - rewrite !contains_app.
    rewrite contains_leadingArgs by reflexivity.
    rewrite contains_optionalPair by reflexivity.
    rewrite contains_sharePairs by reflexivity.
    unfold suppliedValues. rewrite contains_app.
    assert (Hb : contains "--sandboxed" (profileBranch opts)
                 = negb (JS.truthy (profile opts))
                   || ("--sandboxed" =? profile opts)).
    { unfold profileBranch.
      destruct (JS.truthy (profile opts)) eqn:Hp; cbn [contains existsb negb orb].
      - now rewrite orb_false_r.
      - reflexivity. }
    rewrite Hb.
    assert (Hd : contains "--sandboxed" (debugToken opts) = false)
      by (unfold debugToken; destruct (debug opts); reflexivity).
    rewrite Hd. cbn [contains existsb].
    destruct (contains "--sandboxed" (shareRecipients opts)),
      (JS.truthy (profile opts));
      repeat match goal with
             | |- context [?a =? ?b] => destruct (a =? b)
             end;
      reflexivity.
Qed.

(** C2 as stated fails: with the profile [prod] and the prompt
    [--sandboxed] the profile is non-empty and the returned list holds both
    the [--profile], [prod] pair and the string [--sandboxed]. *)
Lemma profile_branch_exclusive_counterexample :
  buildArgs Inputs.sandboxedPrompt
  = ["agent"; "run"; "--prompt"; "--sandboxed"; "--profile"; "prod"]
  /\ ~ (In "--sandboxed" (buildArgs Inputs.sandboxedPrompt)
        <-> profile Inputs.sandboxedPrompt = "").
Proof.
  split; [reflexivity|].
  intros [H _].
  assert (Hin : In "--sandboxed" (buildArgs Inputs.sandboxedPrompt))
    by (apply contains_In; reflexivity).
  specialize (H Hin). discriminate.
Qed.

(** *** C10 *)

(** C10, as the source has it.  Every share recipient, the empty string
    included, contributes [--share] immediately followed by that recipient,
    in input order, between the output-format step and the debug step.  The
    number of strings [--share] in the returned list is the number of
    recipients plus the number of caller-supplied strings (string fields and
    recipients) that are themselves [--share]. *)
Theorem share_pair_per_recipient (opts : BuildArgsOptions) :
  buildArgs opts
  = ((leadingArgs opts ++ profileBranch opts
      ++ optionalPair "--output-format" (outputFormat opts))
     ++ flat_map (fun recipient => ["--share"; recipient])
                 (shareRecipients opts)
     ++ debugToken opts)%list
  /\ occurrences "--share"
       (flat_map (fun recipient => ["--share"; recipient])
                 (shareRecipients opts))
     = List.length (shareRecipients opts)
       + occurrences "--share" (shareRecipients opts)
  /\ occurrences "--share" (buildArgs opts)
     = List.length (shareRecipients opts)
       + occurrences "--share" (suppliedValues opts).
Proof.
  split; [rewrite buildArgs_unfold; now rewrite <- !app_assoc|].
  split; [apply occurrences_sharePairs|].
  rewrite buildArgs_unfold. unfold leadingArgs, suppliedValues.
  change [prompt opts; savedPrompt opts; skill opts; model opts; name opts;
          mcp opts; cwd opts; profile opts; outputFormat opts]
    with ([prompt opts] ++ [savedPrompt opts] ++ [skill opts] ++ [model opts]
          ++ [name opts] ++ [mcp opts] ++ [cwd opts] ++ [profile opts]
          ++ [outputFormat opts])%list.
  rewrite !occurrences_app, occurrences_sharePairs.
  rewrite !occurrences_optionalPair by (reflexivity || discriminate).
  assert (Hb : occurrences "--share" (profileBranch opts)
               = occurrences "--share" [profile opts]).
  { unfold profileBranch, occurrences.
    destruct (profile opts) as [|c p]; cbn [JS.truthy].
    - rewrite !count_occ_cons_neq by discriminate. reflexivity.
    - now rewrite (@count_occ_cons_neq _ string_dec [String c p]
                     "--profile" "--share") by discriminate. }
  assert (Hd : occurrences "--share" (debugToken opts) = 0).
  { unfold debugToken, occurrences. destruct (debug opts); [|reflexivity].
    now rewrite count_occ_cons_neq by discriminate. }
  rewrite Hb, Hd.
  change (occurrences "--share" ["agent"; "run"]) with 0.
  lia.
Qed.

(** C10 as stated fails: with one recipient and the prompt [--share] the
    returned list holds two strings [--share]. *)
Lemma share_pair_per_recipient_counterexample :
  buildArgs Inputs.sharePrompt
  = ["agent"; "run"; "--prompt"; "--share"; "--sandboxed";
     "--share"; "a@x.com"]
  /\ occurrences "--share" (buildArgs Inputs.sharePrompt) = 2
  /\ List.length (shareRecipients Inputs.sharePrompt) = 1.
Proof.
  repeat split.
Qed.

(** ** Channel resolver *)

(** *** C3 *)

(** C3.  [resolveCommand] returns [oz] for the channel [stable] and
    [oz-preview] for [preview]; for every other channel, the empty string
    included, it throws the error whose message is [Unsupported channel ]
    followed by the channel.  It is a function of its argument alone: called
    from the orchestrator it leaves the trace of effects as it found it, and
    a run with an unsupported channel stops there with no effect. *)
Theorem resolveCommand_channels (channel : string) :
  (channel = "stable" -> resolveCommand channel = Ok "oz")
  /\ (channel = "preview" -> resolveCommand channel = Ok "oz-preview")
  /\ (channel <> "stable" -> channel <> "preview" ->
      resolveCommand channel = Err (UnsupportedChannel channel)
      /\ message (UnsupportedChannel channel)
         = "Unsupported channel " ++ channel
      /\ forall h prompt savedPrompt skill model name mcp apiKey t,
           runChecked h channel prompt savedPrompt skill model name mcp
                      apiKey t
           = (Err (UnsupportedChannel channel), t))
  /\ (forall t, lift (resolveCommand channel) t = (resolveCommand channel, t)).
Proof.
  split; [intros ->; reflexivity|].
  split; [intros ->; reflexivity|].
  split; [|reflexivity].
  intros Hs Hp. apply String.eqb_neq in Hs, Hp.
  split; [|split; [reflexivity|]].
  - unfold resolveCommand. now rewrite Hs, Hp.
  - intros. unfold runChecked, bind, lift, resolveCommand.
    now rewrite Hs, Hp.
Qed.

Lemma resolveCommand_channels_witness :
  resolveCommand "" = Err (UnsupportedChannel "")
  /\ message (UnsupportedChannel "") = "Unsupported channel "
  /\ resolveCommand "beta" = Err (UnsupportedChannel "beta")
  /\ message (UnsupportedChannel "beta") = "Unsupported channel beta"
  /\ resolveCommand "stable" = Ok "oz"
  /\ resolveCommand "preview" = Ok "oz-preview".
Proof.
  destruct (resolveCommand_channels "") as (_ & _ & Hempty & _).
  destruct (resolveCommand_channels "beta") as (_ & _ & Hbeta & _).
  destruct (resolveCommand_channels "stable") as (Hstable & _).
  destruct (resolveCommand_channels "preview") as (_ & Hpreview & _).
  destruct Hempty as (H1 & H2 & _); [discriminate | discriminate |].
  destruct Hbeta as (H3 & H4 & _); [discriminate | discriminate |].
  refine (conj H1 (conj H2 (conj H3 (conj H4 (conj _ _))))).
  - apply Hstable. reflexivity.
  - apply Hpreview. reflexivity.
Defined.

(** ** Version normalization and the download URL *)

Lemma startsWith_v (version : string) :
  JS.startsWith "v" version = true ->
  exists rest, version = String "v" rest.
Proof.
  destruct version as [|c rest]; [discriminate|].
  unfold JS.startsWith. cbn [String.prefix].
  destruct (ascii_dec "v" c) as [<-|]; [|discriminate].
  intros _. now exists rest.
Qed.

Lemma startsWith_not_v (version : string) :
  JS.startsWith "v" version = false ->
  forall rest, version <> String "v" rest.
Proof.
  intros H rest ->. unfold JS.startsWith in H. cbn [String.prefix] in H.
  destruct (ascii_dec "v" "v") as [_|N]; [|now apply N].
  destruct rest; discriminate.
Qed.

(** The source's normalization is the documented one. *)
Lemma normalizeVersion_documented (version : string) :
  normalizeVersion version = (packageVersion version, tagVersion version).
Proof.
  unfold normalizeVersion.
  destruct (JS.startsWith "v" version) eqn:E.
  - apply startsWith_v in E as [rest ->]. reflexivity.
  - pose proof (startsWith_not_v version E) as N.
    unfold packageVersion, tagVersion.
    destruct version as [|c rest]; [reflexivity|].
    destruct c as [[] [] [] [] [] [] [] []]; try reflexivity.
    exfalso. now apply (N rest).
Qed.

Lemma tagVersion_packageVersion (version : string) :
  tagVersion version = "v" ++ packageVersion version.
Proof.
  unfold tagVersion, packageVersion.
  destruct version as [|c rest]; [reflexivity|].
  destruct c as [[] [] [] [] [] [] [] []]; reflexivity.
Qed.

Lemma resolveVersion_concrete (h : Host) (arch debArch channel version : string)
    (t : trace) :
  version <> "latest" ->
  resolveVersion h arch debArch channel version t
  = (Ok (releaseUrl channel (tagVersion version) (packageVersion version)
                    debArch,
         tagVersion version), t).
Proof.
  intros H. apply String.eqb_neq in H.
  unfold resolveVersion. rewrite H, normalizeVersion_documented. reflexivity.
Qed.

Lemma hostArch_debArch (h : Host) (arch debArch : string) :
  hostArch h = Ok (arch, debArch) ->
  (process_arch h = "x64" /\ arch = "x86_64" /\ debArch = "amd64")
  \/ (process_arch h = "arm64" /\ arch = "aarch64" /\ debArch = "arm64").
Proof.
  unfold hostArch.
  destruct (process_arch h =? "x64") eqn:E1.
  - intros [= <- <-]. left. now apply String.eqb_eq in E1.
  - destruct (process_arch h =? "arm64") eqn:E2; [|discriminate].
    intros [= <- <-]. right. now apply String.eqb_eq in E2.
Qed.

Lemma downloadOzDeb_supported (h : Host) (arch debArch channel version : string)
    (t : trace) :
  process_platform h = "linux" -> hostArch h = Ok (arch, debArch) ->
  downloadOzDeb h channel version t
  = bind (resolveVersion h arch debArch channel version)
         (fun '(debUrl, version) => cachedPackage h channel version debUrl) t.
Proof.
  intros Hp Ha. unfold downloadOzDeb.
  rewrite Hp. cbn [String.eqb Ascii.eqb Bool.eqb negb].
  unfold bind at 1. unfold lift. rewrite Ha. reflexivity.
Qed.

(** *** C4 *)

(** C4.  On a supported host, for every version string other than
    [latest], package location normalizes the version to the package version
    (a leading [v] stripped) and the tag version (a leading [v] present,
    prefixed when absent), so that [1.2.3] and [v1.2.3] both give the package
    version [1.2.3] and the tag version [v1.2.3]; the download URL is
    [https://releases.warp.dev/<channel>/<tag>/oz_<channel>_<package>_<debArch>.deb]
    with the package architecture [amd64] or [arm64] of the host, and it is
    the URL package location goes on with. *)
Theorem concrete_version_url (h : Host) (arch debArch channel version : string)
    (t : trace) :
  process_platform h = "linux" ->
  hostArch h = Ok (arch, debArch) ->
  version <> "latest" ->
  normalizeVersion version = (packageVersion version, tagVersion version)
  /\ resolveVersion h arch debArch channel version t
     = (Ok ("https://releases.warp.dev/" ++ channel ++ "/"
            ++ tagVersion version ++ "/oz_" ++ channel ++ "_"
            ++ packageVersion version ++ "_" ++ debArch ++ ".deb",
            tagVersion version), t)
  /\ downloadOzDeb h channel version t
     = cachedPackage h channel (tagVersion version)
         ("https://releases.warp.dev/" ++ channel ++ "/"
          ++ tagVersion version ++ "/oz_" ++ channel ++ "_"
          ++ packageVersion version ++ "_" ++ debArch ++ ".deb") t
  /\ (debArch = "amd64" \/ debArch = "arm64")
  /\ normalizeVersion "1.2.3" = ("1.2.3", "v1.2.3")
  /\ normalizeVersion "v1.2.3" = ("1.2.3", "v1.2.3").
Proof.
  intros Hp Ha Hv.
  split; [apply normalizeVersion_documented|].
  split; [now apply resolveVersion_concrete|].
  split.
  - rewrite (downloadOzDeb_supported h arch debArch) by assumption.
    unfold bind. now rewrite resolveVersion_concrete.
  - split; [|split; reflexivity].
    destruct (hostArch_debArch h arch debArch Ha) as [(_ & _ & ->)|(_ & _ & ->)];
      [now left | now right].
Qed.

Lemma concrete_version_url_witness :
  resolveVersion Sample.runner "x86_64" "amd64" "stable" "1.2.3" []
  = (Ok ("https://releases.warp.dev/stable/v1.2.3/oz_stable_1.2.3_amd64.deb",
         "v1.2.3"), [])
  /\ resolveVersion Sample.runner "x86_64" "amd64" "stable" "v1.2.3" []
     = (Ok ("https://releases.warp.dev/stable/v1.2.3/oz_stable_1.2.3_amd64.deb",
            "v1.2.3"), []).
Proof.
  split.
  - apply (concrete_version_url Sample.runner "x86_64" "amd64" "stable"
             "1.2.3" []); [reflexivity | reflexivity | discriminate].
  - apply (concrete_version_url Sample.runner "x86_64" "amd64" "stable"
             "v1.2.3" []); [reflexivity | reflexivity | discriminate].
Defined.

(** *** C9 *)

(** C9.  The tag version computed by the normalization is [v] followed by
    the package version, whether or not the input began with [v]; of several
    leading [v]s only the first is stripped.  For every version other than
    [latest] these are the two versions the download URL is built from. *)
Theorem tag_is_v_then_package (version : string) :
  snd (normalizeVersion version) = "v" ++ fst (normalizeVersion version)
  /\ normalizeVersion "vv1.2.3" = ("v1.2.3", "vv1.2.3")
  /\ (version <> "latest" ->
      forall h arch debArch channel t,
        resolveVersion h arch debArch channel version t
        = (Ok (releaseUrl channel ("v" ++ fst (normalizeVersion version))
                          (fst (normalizeVersion version)) debArch,
               "v" ++ fst (normalizeVersion version)), t)).
Proof.
  rewrite normalizeVersion_documented. cbn [fst snd].
  split; [apply tagVersion_packageVersion|].
  split; [reflexivity|].
  intros Hv h arch debArch channel t.
  rewrite <- tagVersion_packageVersion.
  now apply resolveVersion_concrete.
Qed.

Lemma tag_is_v_then_package_witness :
  snd (normalizeVersion "vv1.2.3") = "v" ++ fst (normalizeVersion "vv1.2.3")
  /\ resolveVersion Sample.runner "aarch64" "arm64" "preview" "vv1.2.3" []
     = (Ok ("https://releases.warp.dev/preview/vv1.2.3/oz_preview_v1.2.3_arm64.deb",
            "vv1.2.3"), []).
Proof.
  destruct (tag_is_v_then_package "vv1.2.3") as (H1 & _ & H3).
  split; [exact H1|].
  apply (H3 ltac:(discriminate) Sample.runner "aarch64" "arm64" "preview" []).
Defined.

(** ** Effects of the package locator *)

Section ThrowsOnly.

Context {A B : Type} (P : error -> Prop).

Lemma throws_only_ret (a : A) : throws_only P (ret a).
Proof.
  intros t e t' H. discriminate.
Qed.

Lemma throws_only_throw (e : error) : P e -> throws_only P (@throw A e).
Proof.
  intros He t e' t' [= <- _]. exact He.
Qed.

Lemma throws_only_lift (r : result A) :
  (forall e, r = Err e -> P e) -> throws_only P (lift r).
Proof.
  intros Hr t e t' [= -> _]. now apply Hr.
Qed.

Lemma throws_only_external (ev : event) (answer : string + A) :
  (forall msg, P (ExternalFailure msg)) -> throws_only P (external ev answer).
Proof.
  intros HP t e t'. unfold external.
  destruct answer; intros [= <- _]. apply HP.
Qed.

Lemma throws_only_bind (m : M A) (k : A -> M B) :
  throws_only P m -> (forall a, throws_only P (k a)) ->
  throws_only P (bind m k).
Proof.
  intros Hm Hk t e t'. unfold bind.
  destruct (m t) as [[a|e0] t0] eqn:E.
  - apply Hk.
  - intros [= <- _]. exact (Hm _ _ _ E).
Qed.

Lemma throws_only_try_catch (m : M A) (handler : error -> M A) :
  throws_only P m -> (forall e, P e -> throws_only P (handler e)) ->
  throws_only P (try_catch m handler).
Proof.
  intros Hm Hh t e t'. unfold try_catch.
  destruct (m t) as [[a|e0] t0] eqn:E; [discriminate|].
  apply Hh. exact (Hm _ _ _ E).
Qed.

Lemma throws_only_group (title : string) (fn : M A) :
  throws_only P fn -> throws_only P (core_group title fn).
Proof.
  intros Hm t e t'. unfold core_group.
  destruct (fn (t ++ [GroupStart title])%list) as [r t0] eqn:E.
  intros [= -> _]. exact (Hm _ _ _ E).
Qed.

End ThrowsOnly.

Lemma throws_only_emit (P : error -> Prop) (ev : event) :
  throws_only P (emit ev).
Proof.
  intros t e t' H. discriminate.
Qed.

(** One step of a proof that a computation throws only errors in [P]. *)
Ltac throws_step :=
  first
    [ apply throws_only_ret
    | apply throws_only_emit
    | apply throws_only_external
    | apply throws_only_group
    | apply throws_only_bind; [|intros ?]
    | match goal with
      | |- throws_only _ (match ?x with _ => _ end) => destruct x
      | |- throws_only _ (let (_, _) := ?x in _) => destruct x
      end ].

Lemma cachedPackage_throws (h : Host) (channel version debUrl : string) :
  throws_only external_error (cachedPackage h channel version debUrl).
Proof.
  unfold cachedPackage.
  repeat throws_step; intros msg; now exists msg.
Qed.

Lemma cachedPackage_outcome (h : Host) (channel version debUrl : string)
    (t : trace) :
  cachedPackage h channel version debUrl t
  = let key := channel ++ "-" ++ version in
    let t1 := (t ++ [TcFind "oz" key])%list in
    if JS.truthy (tc_find h "oz" key) then
      (Ok (path_join h [tc_find h "oz" key; "oz.deb"]),
       (t1 ++ [CoreDebug "Using cached .deb package"])%list)
    else
      let t2 := (t1 ++ [CoreDebug ("Downloading from " ++ debUrl ++ "...");
                        TcDownloadTool debUrl])%list in
      match tc_downloadTool h debUrl with
      | inl msg => (Err (ExternalFailure msg), t2)
      | inr downloaded =>
          let t3 := (t2 ++ [TcCacheFile downloaded "oz.deb" "oz" key])%list in
          match tc_cacheFile h downloaded "oz.deb" "oz" key with
          | inl msg => (Err (ExternalFailure msg), t3)
          | inr dir => (Ok (path_join h [dir; "oz.deb"]), t3)
          end
      end.
Proof.
  unfold cachedPackage, bind, external, emit, ret. cbv zeta.
  destruct (JS.truthy (tc_find h "oz" (channel ++ "-" ++ version)));
    cbn [negb]; [reflexivity|].
  destruct (tc_downloadTool h debUrl) as [msg|downloaded].
  - now rewrite <- !app_assoc.
  - destruct (tc_cacheFile h downloaded "oz.deb" "oz"
                (channel ++ "-" ++ version));
      now rewrite <- !app_assoc.
Qed.

(** *** C6 *)

(** C6.  Once the download URL and the version are resolved, package
    location asks the tool cache for the tool [oz] at the key
    [<channel>-<version>].  On a hit it returns the path of [oz.deb] in the
    directory found, and nothing is downloaded.  On a miss it downloads the
    resolved URL, registers the downloaded file as [oz.deb] for the tool [oz]
    under the same key and returns the path of [oz.deb] in the directory the
    cache answers; a failure of the download or of the registration is
    thrown as it is. *)
Theorem cache_hit_or_download
    (h : Host) (arch debArch channel requested debUrl version : string)
    (t t0 : trace) :
  process_platform h = "linux" ->
  hostArch h = Ok (arch, debArch) ->
  resolveVersion h arch debArch channel requested t
  = (Ok (debUrl, version), t0) ->
  let key := channel ++ "-" ++ version in
  let found := tc_find h "oz" key in
  let t1 := (t0 ++ [TcFind "oz" key])%list in
  let t2 := (t1 ++ [CoreDebug ("Downloading from " ++ debUrl ++ "...");
                    TcDownloadTool debUrl])%list in
  (found <> "" ->
   downloadOzDeb h channel requested t
   = (Ok (path_join h [found; "oz.deb"]),
      (t1 ++ [CoreDebug "Using cached .deb package"])%list))
  /\ (found = "" ->
      match tc_downloadTool h debUrl with
      | inl msg =>
          downloadOzDeb h channel requested t = (Err (ExternalFailure msg), t2)
      | inr downloaded =>
          match tc_cacheFile h downloaded "oz.deb" "oz" key with
          | inl msg =>
              downloadOzDeb h channel requested t
              = (Err (ExternalFailure msg),
                 (t2 ++ [TcCacheFile downloaded "oz.deb" "oz" key])%list)
          | inr dir =>
              downloadOzDeb h channel requested t
              = (Ok (path_join h [dir; "oz.deb"]),
                 (t2 ++ [TcCacheFile downloaded "oz.deb" "oz" key])%list)
          end
      end).
Proof.
  intros Hp Ha Hr key found t1 t2.
  rewrite (downloadOzDeb_supported h arch debArch) by assumption.
  unfold bind. rewrite Hr, cachedPackage_outcome. cbv zeta.
  fold key. fold found. fold t1. fold t2.
  split; intros Hf.
  - destruct found; [contradiction | reflexivity].
  - rewrite Hf. cbn [JS.truthy].
    destruct (tc_downloadTool h debUrl); [reflexivity|].
    destruct (tc_cacheFile h s "oz.deb" "oz" key); reflexivity.
Qed.

Lemma cache_hit_or_download_witness :
  downloadOzDeb Sample.runner "stable" "1.2.3" []
  = (Ok "/opt/hostedtoolcache/oz/stable-v1.2.3/x64/oz.deb",
     [TcFind "oz" "stable-v1.2.3";
      CoreDebug "Downloading from https://releases.warp.dev/stable/v1.2.3/oz_stable_1.2.3_amd64.deb...";
      TcDownloadTool "https://releases.warp.dev/stable/v1.2.3/oz_stable_1.2.3_amd64.deb";
      TcCacheFile "/tmp/dl-1" "oz.deb" "oz" "stable-v1.2.3"])
  /\ downloadOzDeb (Sample.cached Sample.runner "/opt/hostedtoolcache/oz/1/x64")
                   "stable" "1.2.3" []
     = (Ok "/opt/hostedtoolcache/oz/1/x64/oz.deb",
        [TcFind "oz" "stable-v1.2.3"; CoreDebug "Using cached .deb package"]).
Proof.
  split.
  - apply (cache_hit_or_download Sample.runner "x86_64" "amd64" "stable"
             "1.2.3"
             "https://releases.warp.dev/stable/v1.2.3/oz_stable_1.2.3_amd64.deb"
             "v1.2.3" [] []); reflexivity.
  - apply (cache_hit_or_download
             (Sample.cached Sample.runner "/opt/hostedtoolcache/oz/1/x64")
             "x86_64" "amd64" "stable" "1.2.3"
             "https://releases.warp.dev/stable/v1.2.3/oz_stable_1.2.3_amd64.deb"
             "v1.2.3" [] []); try reflexivity.
    discriminate.
Defined.

(** *** C7 *)

(** C7.  On a host whose platform is not [linux], or whose architecture is
    neither [x64] nor [arm64], package location throws before it does
    anything else: the trace of effects is returned as it was, so no HTTP
    request, download or cache access precedes the failure.  The error is
    the unsupported-platform error when the platform is not [linux], and the
    unsupported-architecture error when the platform is [linux]. *)
Theorem unsupported_host_fails_first
    (h : Host) (channel version : string) (t : trace) :
  process_platform h <> "linux"
  \/ (process_arch h <> "x64" /\ process_arch h <> "arm64") ->
  exists e,
    downloadOzDeb h channel version t = (Err e, t)
    /\ (process_platform h <> "linux" ->
        e = UnsupportedPlatform (process_platform h))
    /\ (process_platform h = "linux" ->
        e = UnsupportedArchitecture (process_arch h)).
Proof.
  intros H. unfold downloadOzDeb.
  destruct (process_platform h =? "linux") eqn:Ep; cbn [negb].
  - apply String.eqb_eq in Ep.
    destruct H as [H|[H1 H2]]; [contradiction|].
    apply String.eqb_neq in H1, H2.
    exists (UnsupportedArchitecture (process_arch h)).
    unfold bind, lift, hostArch. rewrite H1, H2.
    split; [reflexivity|]. split; [contradiction | reflexivity].
  - apply String.eqb_neq in Ep.
    exists (UnsupportedPlatform (process_platform h)).
    split; [reflexivity|]. split; [reflexivity | contradiction].
Qed.

Lemma unsupported_host_fails_first_witness :
  downloadOzDeb (Sample.on_machine Sample.runner "darwin" "arm64")
                "stable" "latest" []
  = (Err (UnsupportedPlatform "darwin"), [])
  /\ downloadOzDeb (Sample.on_machine Sample.runner "linux" "ia32")
                   "stable" "latest" []
     = (Err (UnsupportedArchitecture "ia32"), []).
Proof.
  split.
  - destruct (unsupported_host_fails_first
                (Sample.on_machine Sample.runner "darwin" "arm64")
                "stable" "latest" []) as (e & Hrun & He & _).
    + left. discriminate.
    + rewrite Hrun, He; [reflexivity | discriminate].
  - destruct (unsupported_host_fails_first
                (Sample.on_machine Sample.runner "linux" "ia32")
                "stable" "latest" []) as (e & Hrun & _ & He).
    + right. split; discriminate.
    + rewrite Hrun, He; reflexivity.
Defined.

(** ** Resolution of [latest] *)

Lemma redirect_status (response : Response) :
  match statusCode response with
  | Some c => (c =? 302)%N || (c =? 301)%N
  | None => false
  end = true
  <-> statusCode response = Some 301%N \/ statusCode response = Some 302%N.
Proof.
  destruct (statusCode response) as [c|].
  - rewrite orb_true_iff, !N.eqb_eq. split.
    + intros [->| ->]; [now right | now left].
    + intros [[= ->]|[= ->]]; [now right | now left].
  - split; [discriminate | intros [H|H]; discriminate].
Qed.

Lemma falsy_location (response : Response) :
  JS.truthy_opt (headers_location response) = false
  <-> headers_location response = None
      \/ headers_location response = Some "".
Proof.
  destruct (headers_location response) as [[|c l]|]; cbn; split;
    try discriminate; try (intros [H|H]; discriminate); auto.
Qed.

(** The [latest] branch, case by case. *)
Lemma resolveLatest_outcome (h : Host) (arch channel : string)
    (response : Response) (t : trace) :
  http_get h (redirectEndpoint arch channel) = inr response ->
  resolveLatest h arch channel "latest" t
  = let t1 := (t ++ [HttpGet "oz-action" false
                       (redirectEndpoint arch channel)])%list in
    if match statusCode response with
       | Some c => (c =? 302)%N || (c =? 301)%N
       | None => false
       end
    then
      if JS.truthy_opt (headers_location response) then
        let location :=
          match headers_location response with Some l => l | None => "" end in
        match URL_pathname h location with
        | None => (Err (InvalidURL location), t1)
        | Some pathname =>
            let version :=
              if (2 <=? List.length (pathComponents pathname))%nat
              then nth 1 (pathComponents pathname) "" else "latest" in
            (Ok (location, version),
             (t1 ++ [CoreInfo ("Latest version on " ++ channel ++ " is "
                               ++ version)])%list)
        end
      else (Err MissingRedirectLocation, t1)
    else (Err (RedirectExpected (statusCode response)), t1).
Proof.
  intros Hget. unfold resolveLatest.
  unfold bind at 1. unfold external at 1. rewrite Hget. cbv zeta.
  destruct (match statusCode response with
            | Some c => (c =? 302)%N || (c =? 301)%N
            | None => false
            end); [|reflexivity].
  destruct (headers_location response) as [[|c l]|]; try reflexivity.
  cbn [JS.truthy_opt JS.truthy negb].
  destruct (URL_pathname h (String c l)); reflexivity.
Qed.

Lemma downloadOzDeb_latest (h : Host) (arch debArch channel : string)
    (t : trace) :
  process_platform h = "linux" -> hostArch h = Ok (arch, debArch) ->
  downloadOzDeb h channel "latest" t
  = bind (resolveLatest h arch channel "latest")
         (fun '(debUrl, version) => cachedPackage h channel version debUrl) t.
Proof.
  intros Hp Ha.
  now rewrite (downloadOzDeb_supported h arch debArch) by assumption.
Qed.

(** *** C5 *)

(** C5, as the source has it.  On a supported host, with the version
    [latest] and an answer from the redirect endpoint: package location
    throws the redirect-expected error exactly when the status is neither 301
    nor 302, and the missing-location error exactly when the status is 301
    or 302 and the [location] header is absent or empty; both leave only the
    request in the trace.  Otherwise the location is given to the URL
    constructor: a location that is not an absolute URL makes it throw, and
    package location fails with that error; for a location that parses, the
    location is the download URL, and the resolved version is the second of
    the non-empty [/]-separated segments of its path when there are at least
    two, and stays [latest] when there are fewer. *)
Theorem latest_redirect_resolution
    (h : Host) (arch debArch channel : string) (response : Response)
    (t : trace) :
  process_platform h = "linux" ->
  hostArch h = Ok (arch, debArch) ->
  http_get h (redirectEndpoint arch channel) = inr response ->
  let redirected :=
    statusCode response = Some 301%N \/ statusCode response = Some 302%N in
  let missing :=
    headers_location response = None
    \/ headers_location response = Some "" in
  let t1 := (t ++ [HttpGet "oz-action" false
                     (redirectEndpoint arch channel)])%list in
  let run := downloadOzDeb h channel "latest" t in
  ((exists status, fst run = Err (RedirectExpected status)) <-> ~ redirected)
  /\ (~ redirected ->
      run = (Err (RedirectExpected (statusCode response)), t1))
  /\ (fst run = Err MissingRedirectLocation <-> redirected /\ missing)
  /\ (redirected -> missing -> run = (Err MissingRedirectLocation, t1))
  /\ (forall location,
        redirected -> headers_location response = Some location ->
        location <> "" ->
        match URL_pathname h location with
        | None => run = (Err (InvalidURL location), t1)
        | Some pathname =>
            let segments := filter JS.truthy (JS.split "/" pathname) in
            let version :=
              if (2 <=? List.length segments)%nat then nth 1 segments ""
              else "latest" in
            let t2 := (t1 ++ [CoreInfo ("Latest version on " ++ channel
                                        ++ " is " ++ version)])%list in
            resolveVersion h arch debArch channel "latest" t
            = (Ok (location, version), t2)
            /\ run = cachedPackage h channel version location t2
        end).
Proof.
  intros Hp Ha Hget redirected missing t1 run.
  assert (Hrun : run
                 = bind (resolveLatest h arch channel "latest")
                     (fun '(debUrl, version) =>
                        cachedPackage h channel version debUrl) t)
    by (now apply downloadOzDeb_latest with (debArch := debArch)).
  unfold bind in Hrun.
  rewrite (resolveLatest_outcome h arch channel response t Hget) in Hrun.
  cbv zeta in Hrun. fold t1 in Hrun.
  pose proof (redirect_status response) as Hst. fold redirected in Hst.
  pose proof (falsy_location response) as Hloc. fold missing in Hloc.
  destruct (match statusCode response with
            | Some c => (c =? 302)%N || (c =? 301)%N
            | None => false
            end).
  2:{ assert (Hno : ~ redirected) by (intros Hr; apply Hst in Hr; discriminate).
      rewrite Hrun. cbn [fst].
      split; [split; [intros _; exact Hno | intros _; eauto]|].
      split; [reflexivity|].
      split; [split; [discriminate | intros [Hr _]; contradiction]|].
      split; [contradiction|].
      intros location Hr. contradiction. }
  assert (Hyes : redirected) by (now apply Hst).
  destruct (JS.truthy_opt (headers_location response)) eqn:Etruthy.
  2:{ assert (Hmiss : missing) by (now apply Hloc).
      rewrite Hrun. cbn [fst].
      split; [split; [intros [status [=]] | intros Hn; contradiction]|].
      split; [contradiction|].
      split; [split; [now intros _ | reflexivity]|].
      split; [reflexivity|].
      intros location _ Hsome Hne. exfalso.
      destruct Hmiss as [Hm|Hm]; rewrite Hm in Hsome; [discriminate|].
      injection Hsome as <-. now apply Hne. }
  assert (Hpresent : ~ missing)
    by (intros Hm; apply Hloc in Hm; discriminate).
  destruct (headers_location response) as [l|] eqn:El; [|discriminate].
  assert (Hfinal : fst run <> Err MissingRedirectLocation
                   /\ forall status, fst run <> Err (RedirectExpected status)).
  { rewrite Hrun.
    destruct (URL_pathname h l) as [pathname|]; cbn [fst].
    - match goal with
      | |- context [cachedPackage h channel ?v ?u ?t0] =>
          pose proof (cachedPackage_throws h channel v u t0) as Hthrows;
          destruct (cachedPackage h channel v u t0) as [[a|e] tr]
      end; cbn [fst]; [split; [discriminate | intros; discriminate]|].
      destruct (Hthrows e tr eq_refl) as [msg ->].
      split; [discriminate | intros; discriminate].
    - split; [discriminate | intros; discriminate]. }
  destruct Hfinal as [Hnm Hnr].
  split; [split; [intros [status Hs]; now apply Hnr in Hs
                 | intros Hn; contradiction]|].
  split; [contradiction|].
  split; [split; [intros Hs; contradiction | intros [_ Hm]; contradiction]|].
  split; [intros _ Hm; contradiction|].
  intros location _ [= <-] Hne.
  unfold resolveVersion. cbn [String.eqb Ascii.eqb Bool.eqb].
  rewrite (resolveLatest_outcome h arch channel response t Hget).
  cbv zeta. fold t1.
  assert (Hst' : match statusCode response with
                 | Some c => (c =? 302)%N || (c =? 301)%N
                 | None => false
                 end = true) by (now apply redirect_status).
  rewrite Hst', El. cbn [JS.truthy_opt]. 
  destruct l as [|c l]; [contradiction|]. cbn [JS.truthy].
  rewrite Hrun.
  destruct (URL_pathname h (String c l)); [split|]; reflexivity.
Qed.

Lemma latest_redirect_resolution_witness :
  resolveVersion Sample.runner "x86_64" "amd64" "stable" "latest" []
  = (Ok (Sample.latestUrl, "v0.2025.06.04"),
     [HttpGet "oz-action" false (redirectEndpoint "x86_64" "stable");
      CoreInfo "Latest version on stable is v0.2025.06.04"])
  /\ resolveVersion (Sample.answering Sample.runner Inputs.shortRedirect)
                    "x86_64" "amd64" "stable" "latest" []
     = (Ok ("https://releases.warp.dev/oz.deb", "latest"),
        [HttpGet "oz-action" false (redirectEndpoint "x86_64" "stable");
         CoreInfo "Latest version on stable is latest"]).
Proof.
  split.
  - destruct (latest_redirect_resolution Sample.runner "x86_64" "amd64"
                "stable"
                {| statusCode := Some 302%N;
                   headers_location := Some Sample.latestUrl |} []
                eq_refl eq_refl eq_refl) as (_ & _ & _ & _ & H).
    specialize (H Sample.latestUrl (or_intror eq_refl) eq_refl).
    apply H. discriminate.
  - destruct (latest_redirect_resolution
                (Sample.answering Sample.runner Inputs.shortRedirect)
                "x86_64" "amd64" "stable" Inputs.shortRedirect []
                eq_refl eq_refl eq_refl) as (_ & _ & _ & _ & H).
    specialize (H "https://releases.warp.dev/oz.deb" (or_intror eq_refl)
                  eq_refl).
    apply H. discriminate.
Defined.

(** C5 as stated fails: the endpoint answers 302 with the [location]
    [/stable/v0.2025.06.04/oz_stable_0.2025.06.04_amd64.deb], a redirect
    relative to the endpoint.  The status is a redirect and the header is
    present, yet no download URL and no version result: the URL constructor
    throws and package location fails, with neither of the two errors. *)
Lemma latest_redirect_resolution_counterexample :
  statusCode Inputs.relativeRedirect = Some 302%N
  /\ headers_location Inputs.relativeRedirect
     = Some "/stable/v0.2025.06.04/oz_stable_0.2025.06.04_amd64.deb"
  /\ downloadOzDeb (Sample.answering Sample.runner Inputs.relativeRedirect)
                   "stable" "latest" []
     = (Err (InvalidURL
               "/stable/v0.2025.06.04/oz_stable_0.2025.06.04_amd64.deb"),
        [HttpGet "oz-action" false
           "https://app.warp.dev/download/cli?os=linux&package=deb&arch=x86_64&channel=stable"]).
Proof.
  repeat split.
Qed.

(** ** Orchestration *)

Lemma resolveVersion_throws (h : Host) (arch debArch channel version : string) :
  throws_only not_input_error (resolveVersion h arch debArch channel version).
Proof.
  unfold resolveVersion, resolveLatest.
  repeat throws_step;
    try (apply throws_only_throw); intros msg; discriminate.
Qed.

Lemma downloadOzDeb_throws (h : Host) (channel version : string) :
  throws_only not_input_error (downloadOzDeb h channel version).
Proof.
  unfold downloadOzDeb.
  destruct (negb (process_platform h =? "linux")).
  - apply throws_only_throw. intros msg. discriminate.
  - apply throws_only_bind.
    + apply throws_only_lift. unfold hostArch. intros e.
      repeat match goal with
             | |- context [if ?b then _ else _] => destruct b
             end; intros [= <-] msg; discriminate.
    + intros [arch debArch]. apply throws_only_bind.
      * apply resolveVersion_throws.
      * intros [debUrl resolved] t e t' H.
        destruct (cachedPackage_throws h channel resolved debUrl t e t' H)
          as [m ->].
        intros msg. discriminate.
Qed.

Lemma logOzLogFile_throws (P : error -> Prop) (h : Host) (channel : string) :
  throws_only P (logOzLogFile h channel).
Proof.
  unfold logOzLogFile. cbv zeta.
  apply throws_only_bind.
  - intros t e t'. unfold external. discriminate.
  - intros [|]; [|apply throws_only_emit].
    apply throws_only_group.
    intros t e t'.
    destruct (fs_readFileSync h _); discriminate.
Qed.

Lemma runChecked_throws
    (h : Host) (channel prompt savedPrompt skill model name mcp apiKey : string) :
  throws_only not_input_error
    (runChecked h channel prompt savedPrompt skill model name mcp apiKey).
Proof.
  unfold runChecked.
  apply throws_only_bind.
  - apply throws_only_lift. unfold resolveCommand. intros e.
    repeat match goal with
           | |- context [if ?b then _ else _] => destruct b
           end; intros [= <-] msg; discriminate.
  - intros command. apply throws_only_bind.
    + unfold installOz. apply throws_only_group.
      apply throws_only_bind; [apply downloadOzDeb_throws|].
      intros ozDeb.
      repeat throws_step; intros msg m; discriminate.
    + intros _. apply throws_only_bind; [|intros; apply throws_only_emit].
      apply throws_only_try_catch.
      * apply throws_only_external. intros msg m. discriminate.
      * intros e He. apply throws_only_bind.
        -- apply logOzLogFile_throws.
        -- intros _. now apply throws_only_throw.
Qed.

(** *** C8 *)

(** C8.  [runAgent] throws a missing-input error, with a message that names
    the inputs, before any effect (the trace is returned as it was, so
    before any network or process activity) when [prompt], [saved_prompt] and
    [skill] are all empty, and when [warp_api_key] is empty.  When one of the
    three is non-empty and the key is non-empty both checks pass: the run
    goes on with the channel resolution, the installation and the
    invocation, and whatever it then throws is not a missing-input error. *)
Theorem runAgent_input_checks (h : Host) (t : trace) :
  let prompt := core_getInput h "prompt" in
  let savedPrompt := core_getInput h "saved_prompt" in
  let skill := core_getInput h "skill" in
  let apiKey := core_getInput h "warp_api_key" in
  (prompt = "" -> savedPrompt = "" -> skill = "" ->
   runAgent h t
   = (Err (MissingRequiredInput
             "Either `prompt`, `saved_prompt`, or `skill` must be provided"),
      t))
  /\ (apiKey = "" ->
      exists msg,
        runAgent h t = (Err (MissingRequiredInput msg), t)
        /\ (msg = "Either `prompt`, `saved_prompt`, or `skill` must be provided"
            \/ msg = "`warp_api_key` must be provided."))
  /\ (prompt <> "" \/ savedPrompt <> "" \/ skill <> "" ->
      apiKey = "" ->
      runAgent h t
      = (Err (MissingRequiredInput "`warp_api_key` must be provided."), t))
  /\ (prompt <> "" \/ savedPrompt <> "" \/ skill <> "" ->
      apiKey <> "" ->
      runAgent h t
      = runChecked h (core_getInput h "oz_channel") prompt savedPrompt skill
          (core_getInput h "model") (core_getInput h "name")
          (core_getInput h "mcp") apiKey t
      /\ forall msg, fst (runAgent h t) <> Err (MissingRequiredInput msg)).
Proof.
  intros prompt savedPrompt skill apiKey.
  assert (Hchecked : forall msg,
             fst (runChecked h (core_getInput h "oz_channel") prompt
                    savedPrompt skill (core_getInput h "model")
                    (core_getInput h "name") (core_getInput h "mcp") apiKey t)
             <> Err (MissingRequiredInput msg)).
  { intros msg Hfst.
    destruct (runChecked h (core_getInput h "oz_channel") prompt savedPrompt
                skill (core_getInput h "model") (core_getInput h "name")
                (core_getInput h "mcp") apiKey t) as [r t'] eqn:E.
    cbn [fst] in Hfst. subst r.
    exact (runChecked_throws _ _ _ _ _ _ _ _ _ _ _ _ E msg eq_refl). }
  unfold runAgent. cbv zeta.
  fold prompt. fold savedPrompt. fold skill. fold apiKey.
  clearbody prompt savedPrompt skill apiKey.
  assert (Hone : prompt <> "" \/ savedPrompt <> "" \/ skill <> "" ->
                 negb (JS.truthy prompt) && negb (JS.truthy savedPrompt)
                 && negb (JS.truthy skill) = false).
  { intros [H|[H|H]]; destruct prompt, savedPrompt, skill;
      try reflexivity; contradiction. }
  split; [|split; [|split; [|intros H Hkey; split]]].
  - intros -> -> ->. reflexivity.
  - intros ->.
    destruct (negb (JS.truthy prompt) && negb (JS.truthy savedPrompt)
              && negb (JS.truthy skill)).
    + eexists. split; [reflexivity | now left].
    + eexists. split; [reflexivity | now right].
  - intros H ->. now rewrite (Hone H).
  - rewrite (Hone H).
    destruct apiKey; [contradiction | reflexivity].
  - intros msg. rewrite (Hone H).
    destruct apiKey; [contradiction|]. apply Hchecked.
Qed.

Lemma runAgent_input_checks_witness :
  runAgent (Sample.with_inputs Sample.runner (fun _ => "")) []
  = (Err (MissingRequiredInput
            "Either `prompt`, `saved_prompt`, or `skill` must be provided"),
     [])
  /\ runAgent (Sample.with_inputs Sample.runner
                 (fun name => if name =? "skill" then "review-pr" else ""))
              []
     = (Err (MissingRequiredInput "`warp_api_key` must be provided."), [])
  /\ fst (runAgent Sample.runner []) = Ok tt
  /\ forall msg,
       fst (runAgent Sample.runner []) <> Err (MissingRequiredInput msg).
Proof.
  destruct (runAgent_input_checks
              (Sample.with_inputs Sample.runner (fun _ => "")) [])
    as (Hnone & _).
  destruct (runAgent_input_checks
              (Sample.with_inputs Sample.runner
                 (fun name => if name =? "skill" then "review-pr" else ""))
              []) as (_ & _ & Hkey & _).
  destruct (runAgent_input_checks Sample.runner []) as (_ & _ & _ & Hpass).
  split; [exact (Hnone eq_refl eq_refl eq_refl)|].
  split; [apply Hkey; [right; right; discriminate | reflexivity]|].
  split; [reflexivity|].
  apply Hpass; [left; discriminate | discriminate].
Defined.

(** * Further properties of the argument builder *)

Lemma optionalPair_cancel (flag v1 v2 : string) (r1 r2 fs : list string) :
  existsb (String.eqb flag) fs = false ->
  headIn fs r1 = true -> headIn fs r2 = true ->
  (optionalPair flag v1 ++ r1 = optionalPair flag v2 ++ r2)%list ->
  v1 = v2 /\ r1 = r2.
Proof.
  intros Hflag H1 H2. unfold optionalPair.
  destruct v1 as [|c1 v1], v2 as [|c2 v2]; cbn [JS.truthy app].
  - intros ->. now split.
  - intros ->. cbn [headIn] in H1. congruence.
  - intros <-. cbn [headIn] in H2. congruence.
  - intros [= -> -> ->]. now split.
Qed.

Lemma profileBranch_cancel (o1 o2 : BuildArgsOptions) (r1 r2 : list string) :
  (profileBranch o1 ++ r1 = profileBranch o2 ++ r2)%list ->
  profile o1 = profile o2 /\ r1 = r2.
Proof.
  unfold profileBranch.
  destruct (profile o1) as [|c1 p1], (profile o2) as [|c2 p2];
    cbn [JS.truthy app]; intros H; try discriminate.
  - injection H as ->. now split.
  - injection H as -> -> ->. now split.
Qed.

Lemma sharePairs_cancel (rs1 rs2 : list string) (d1 d2 : bool) :
  (sharePairs rs1 ++ (if d1 then ["--debug"] else [])
   = sharePairs rs2 ++ (if d2 then ["--debug"] else []))%list ->
  rs1 = rs2 /\ d1 = d2.
Proof.
  revert rs2.
  induction rs1 as [|r1 rs1 IH]; intros [|r2 rs2].
  - destruct d1, d2; cbn; intros H; try discriminate; now split.
  - destruct d1; cbn; intros H; discriminate.
  - destruct d2; cbn; intros H; discriminate.
  - change (sharePairs (?r :: ?rs)) with ("--share" :: r :: sharePairs rs)%list.
    cbn [app]. intros [= -> H].
    destruct (IH rs2 H) as [-> ->]. now split.
Qed.

(** The next thing pushed, if anything, is a flag other than [flag]. *)
Ltac next_flag :=
  unfold otherFlags, optionalPair, profileBranch, debugToken;
  repeat first
    [ reflexivity
    | match goal with
      | |- context [JS.truthy ?x] => destruct (JS.truthy x)
      | |- context [if debug ?o then _ else _] => destruct (debug o)
      | |- context [sharePairs (shareRecipients ?o)] =>
          destruct (shareRecipients o)
      end ].

Ltac cancel_pair H flag Hv :=
  apply (optionalPair_cancel flag) with (fs := otherFlags flag) in H;
  [destruct H as [Hv H] | reflexivity | next_flag | next_flag].

(** No two option records give the same argument list: the list returned
    by [buildArgs] determines every field, even when a value is spelled like
    a flag. *)
Theorem buildArgs_injective (o1 o2 : BuildArgsOptions) :
  buildArgs o1 = buildArgs o2 -> o1 = o2.
Proof.
  rewrite !buildArgs_unfold. unfold leadingArgs.
  rewrite <- !app_assoc. cbn [app]. intros [= H].
  cancel_pair H "--prompt" H1.
  cancel_pair H "--saved-prompt" H2.
  cancel_pair H "--skill" H3.
  cancel_pair H "--model" H4.
  cancel_pair H "--name" H5.
  cancel_pair H "--mcp" H6.
  cancel_pair H "--cwd" H7.
  apply profileBranch_cancel in H as [H8 H].
  cancel_pair H "--output-format" H9.
  unfold debugToken in H.
  apply sharePairs_cancel in H as [H10 H11].
  destruct o1, o2. cbn in *. congruence.
Qed.

Lemma buildArgs_injective_witness :
  actionOptions (Sample.with_inputs Sample.runner (fun _ => ""))
  = Sample.defaultOpts.
Proof.
  apply buildArgs_injective. reflexivity.
Defined.

Lemma forallb_truthy_sharePairs (rs : list string) :
  forallb JS.truthy (sharePairs rs) = forallb JS.truthy rs.
Proof.
  induction rs as [|r rs IH]; [reflexivity|].
  change (sharePairs (r :: rs)) with ("--share" :: r :: sharePairs rs)%list.
  cbn [forallb JS.truthy andb]. now rewrite IH.
Qed.

(** The only empty strings [buildArgs] can return are empty share
    recipients: every argument is non-empty exactly when every recipient
    is. *)
Theorem buildArgs_empty_arguments (opts : BuildArgsOptions) :
  forallb JS.truthy (buildArgs opts)
  = forallb JS.truthy (shareRecipients opts).
Proof.
  rewrite buildArgs_unfold, !forallb_app.
  rewrite leadingArgs_truthy, forallb_truthy_optionalPair by reflexivity.
  rewrite forallb_truthy_sharePairs.
  assert (Hp : forallb JS.truthy (profileBranch opts) = true).
  { unfold profileBranch.
    destruct (JS.truthy (profile opts)) eqn:E; cbn; [now rewrite E | reflexivity]. }
  assert (Hd : forallb JS.truthy (debugToken opts) = true)
    by (unfold debugToken; destruct (debug opts); reflexivity).
  rewrite Hp, Hd. cbn [andb]. apply andb_true_r.
Qed.

Lemma length_optionalPair (flag v : string) :
  List.length (optionalPair flag v) <= 2.
Proof.
  unfold optionalPair. destruct (JS.truthy v); cbn; lia.
Qed.

Lemma length_sharePairs (rs : list string) :
  List.length (sharePairs rs) = 2 * List.length rs.
Proof.
  induction rs as [|r rs IH]; [reflexivity|].
  change (sharePairs (r :: rs)) with ("--share" :: r :: sharePairs rs)%list.
  cbn [List.length]. lia.
Qed.

(** The argument list always begins with [agent], [run]; it has at least
    three elements and two more per share recipient, and at most twenty-one
    and two more per share recipient; when debug is set its last element is
    [--debug]. *)
Theorem buildArgs_frame (opts : BuildArgsOptions) :
  (exists rest, buildArgs opts = "agent" :: "run" :: rest)
  /\ 3 + 2 * List.length (shareRecipients opts) <= List.length (buildArgs opts)
  /\ List.length (buildArgs opts) <= 21 + 2 * List.length (shareRecipients opts)
  /\ (debug opts = true -> last (buildArgs opts) "" = "--debug").
Proof.
  rewrite buildArgs_unfold.
  split; [unfold leadingArgs; rewrite <- !app_assoc; cbn [app]; eauto|].
  assert (Hp : 1 <= List.length (profileBranch opts) <= 2)
    by (unfold profileBranch; destruct (JS.truthy (profile opts)); cbn; lia).
  assert (Hd : List.length (debugToken opts) <= 1)
    by (unfold debugToken; destruct (debug opts); cbn; lia).
  unfold leadingArgs.
  rewrite !length_app, length_sharePairs. cbn [List.length].
  pose proof (length_optionalPair "--prompt" (prompt opts)).
  pose proof (length_optionalPair "--saved-prompt" (savedPrompt opts)).
  pose proof (length_optionalPair "--skill" (skill opts)).
  pose proof (length_optionalPair "--model" (model opts)).
  pose proof (length_optionalPair "--name" (name opts)).
  pose proof (length_optionalPair "--mcp" (mcp opts)).
  pose proof (length_optionalPair "--cwd" (cwd opts)).
  pose proof (length_optionalPair "--output-format" (outputFormat opts)).
  split; [lia|]. split; [lia|].
  intros Hdebug. unfold debugToken. rewrite Hdebug.
  rewrite !app_assoc. apply last_last.
Qed.

Lemma buildArgs_frame_witness :
  last (buildArgs {| prompt := "p"; savedPrompt := ""; skill := "";
                     model := ""; name := ""; mcp := ""; cwd := "";
                     profile := ""; outputFormat := "";
                     shareRecipients := [""]; debug := true |}) ""
  = "--debug".
Proof.
  apply buildArgs_frame. reflexivity.
Defined.

(** * Further properties of the package locator *)

(** ** Versions *)

Lemma startsWith_v_cons (rest : string) :
  JS.startsWith "v" (String "v" rest) = true.
Proof.
  unfold JS.startsWith. cbn [String.prefix].
  destruct (ascii_dec "v" "v") as [_|N]; [|now contradiction N].
  destruct rest; reflexivity.
Qed.

(** A concrete version may be given with or without its leading [v]: for a
    version that does not begin with [v] and is not [latest], package
    location does the same on any host whether it is asked for the version
    or for [v] followed by it (same download URL, same cache key, same
    effects, same result). *)
Theorem downloadOzDeb_v_prefix_optional
    (h : Host) (channel version : string) (t : trace) :
  JS.startsWith "v" version = false ->
  version <> "latest" ->
  normalizeVersion ("v" ++ version) = normalizeVersion version
  /\ downloadOzDeb h channel ("v" ++ version) t
     = downloadOzDeb h channel version t.
Proof.
  intros Hv Hl.
  assert (Hn : normalizeVersion ("v" ++ version) = normalizeVersion version).
  { unfold normalizeVersion. rewrite Hv.
    change ("v" ++ version) with (String "v" version).
    now rewrite startsWith_v_cons. }
  split; [exact Hn|].
  unfold downloadOzDeb, resolveVersion.
  apply String.eqb_neq in Hl. rewrite Hl, Hn.
  reflexivity.
Qed.

Lemma downloadOzDeb_v_prefix_optional_witness :
  downloadOzDeb Sample.runner "stable" "v0.2025.06.04" []
  = downloadOzDeb Sample.runner "stable" "0.2025.06.04" [].
Proof.
  apply (downloadOzDeb_v_prefix_optional Sample.runner "stable"
           "0.2025.06.04" []); [reflexivity | discriminate].
Defined.

(** The tag version always begins with [v], and normalizing a tag version
    again changes nothing: it is its own tag version and its package version
    is the one already computed. *)
Theorem normalizeVersion_idempotent (version : string) :
  JS.startsWith "v" (snd (normalizeVersion version)) = true
  /\ normalizeVersion (snd (normalizeVersion version))
     = normalizeVersion version.
Proof.
  unfold normalizeVersion.
  destruct (JS.startsWith "v" version) eqn:E; cbn [fst snd].
  - now rewrite E.
  - change ("v" ++ version) with (String "v" version).
    rewrite startsWith_v_cons. now split.
Qed.

(** ** The path of the redirect target *)

Lemma split_nonempty (sep : ascii) (s : string) : JS.split sep s <> [].
Proof.
  destruct s as [|c r]; cbn; [discriminate|].
  destruct (Ascii.eqb c sep); [discriminate|].
  destruct (JS.split sep r); discriminate.
Qed.

Lemma split_no_separator (sep : ascii) (s x : string) :
  In x (JS.split sep s) -> contains_char sep x = false.
Proof.
  revert x.
  induction s as [|c r IH]; intros x; cbn [JS.split].
  - intros [<-|[]]. reflexivity.
  - destruct (Ascii.eqb c sep) eqn:E.
    + intros [<-|H]; [reflexivity | now apply IH].
    + destruct (JS.split sep r) as [|piece pieces] eqn:Es.
      * now contradiction (split_nonempty sep r).
      * intros [<-|H].
        -- cbn [contains_char]. rewrite E. apply IH. now left.
        -- apply IH. now right.
Qed.

(** Splitting on a separator and joining with it gives the string back. *)
Lemma split_concat (sep : ascii) (s : string) :
  String.concat (String sep "") (JS.split sep s) = s.
Proof.
  induction s as [|c r IH]; [reflexivity|].
  cbn [JS.split].
  destruct (JS.split sep r) as [|piece pieces] eqn:Es;
    [now contradiction (split_nonempty sep r)|].
  destruct (Ascii.eqb c sep) eqn:E.
  - apply Ascii.eqb_eq in E. subst c.
    change (String.concat (String sep "") ("" :: piece :: pieces))
      with (String sep (String.concat (String sep "") (piece :: pieces))).
    now rewrite IH.
  - destruct pieces as [|p ps].
    + cbn in IH. cbn. now rewrite IH.
    + change (String.concat (String sep "") (String c piece :: p :: ps))
        with (String c (String.concat (String sep "") (piece :: p :: ps))).
      now rewrite IH.
Qed.

(** The components of a path, as line 193 computes them, are its maximal
    runs of characters other than [/]: none is empty, none contains a [/],
    and a path without a run has none. *)
Theorem pathComponents_wellformed (pathname component : string) :
  In component (pathComponents pathname) ->
  component <> "" /\ contains_char "/" component = false.
Proof.
  unfold pathComponents. rewrite filter_In. intros [Hin Htruthy].
  split.
  - intros ->. discriminate.
  - now apply split_no_separator with (s := pathname).
Qed.

Lemma pathComponents_wellformed_witness :
  "v0.2025.06.04" <> "" /\ contains_char "/" "v0.2025.06.04" = false.
Proof.
  apply (pathComponents_wellformed
           "/stable/v0.2025.06.04/oz_stable_0.2025.06.04_amd64.deb").
  cbn. right. left. reflexivity.
Defined.

(** When [latest] is resolved, the version package location goes on with is
    either still [latest] or a non-empty string without a [/], and the
    download URL is not empty. *)
Theorem latest_version_wellformed
    (h : Host) (arch debArch channel debUrl version : string) (t t' : trace) :
  resolveVersion h arch debArch channel "latest" t
  = (Ok (debUrl, version), t') ->
  debUrl <> ""
  /\ (version = "latest"
      \/ (version <> "" /\ contains_char "/" version = false)).
Proof.
  unfold resolveVersion. cbn [String.eqb Ascii.eqb Bool.eqb].
  destruct (http_get h (redirectEndpoint arch channel)) as [msg|response] eqn:Hget.
  - unfold resolveLatest, bind, external. rewrite Hget. discriminate.
  - rewrite (resolveLatest_outcome h arch channel response t Hget). cbv zeta.
    destruct (match statusCode response with
              | Some c => (c =? 302)%N || (c =? 301)%N
              | None => false
              end); [|discriminate].
    destruct (headers_location response) as [[|c l]|];
      cbn [JS.truthy_opt JS.truthy]; try discriminate.
    destruct (URL_pathname h (String c l)) as [pathname|]; [|discriminate].
    intros [= <- <- _]. split; [discriminate|].
    destruct (pathComponents pathname) as [|first [|second rest]] eqn:Ec;
      cbn [List.length nth]; [now left | now left | right].
    apply (pathComponents_wellformed pathname).
    rewrite Ec. right. now left.
Qed.

Lemma latest_version_wellformed_witness :
  Sample.latestUrl <> ""
  /\ ("v0.2025.06.04" = "latest"
      \/ ("v0.2025.06.04" <> ""
          /\ contains_char "/" "v0.2025.06.04" = false)).
Proof.
  apply (latest_version_wellformed Sample.runner "x86_64" "amd64" "stable"
           Sample.latestUrl "v0.2025.06.04" []
           [HttpGet "oz-action" false (redirectEndpoint "x86_64" "stable");
            CoreInfo "Latest version on stable is v0.2025.06.04"]).
  reflexivity.
Defined.

(** ** Failures of the collaborators *)

(** When the request to the redirect endpoint itself fails, package location
    fails with that error and has done nothing but the request: no cache
    lookup and no download follow. *)
Theorem latest_request_failure
    (h : Host) (arch debArch channel msg : string) (t : trace) :
  process_platform h = "linux" ->
  hostArch h = Ok (arch, debArch) ->
  http_get h (redirectEndpoint arch channel) = inl msg ->
  downloadOzDeb h channel "latest" t
  = (Err (ExternalFailure msg),
     (t ++ [HttpGet "oz-action" false
              ("https://app.warp.dev/download/cli?os=linux&package=deb&arch="
               ++ arch ++ "&channel=" ++ channel)])%list).
Proof.
  intros Hp Ha Hget.
  rewrite (downloadOzDeb_latest h arch debArch) by assumption.
  unfold bind, resolveLatest, bind, external. now rewrite Hget.
Qed.

Lemma latest_request_failure_witness :
  downloadOzDeb Hosts.offline "preview" "latest" []
  = (Err (ExternalFailure "connect ETIMEDOUT"),
     [HttpGet "oz-action" false
        "https://app.warp.dev/download/cli?os=linux&package=deb&arch=aarch64&channel=preview"]).
Proof.
  apply (latest_request_failure Hosts.offline "aarch64" "arm64" "preview"
           "connect ETIMEDOUT" []); reflexivity.
Defined.

(** * What each part of the action emits *)

Section EmitsOnly.

Context {A B : Type} (q : event -> bool).

Lemma emits_only_ret (a : A) : emits_only q (ret a).
Proof.
  intros t r t' [= <- <-]. exists []. now rewrite app_nil_r.
Qed.

Lemma emits_only_throw (e : error) : emits_only q (@throw A e).
Proof.
  intros t r t' [= <- <-]. exists []. now rewrite app_nil_r.
Qed.

Lemma emits_only_lift (r : result A) : emits_only q (lift r).
Proof.
  intros t r' t' [= <- <-]. exists []. now rewrite app_nil_r.
Qed.

Lemma emits_only_external (ev : event) (answer : string + A) :
  q ev = true -> emits_only q (external ev answer).
Proof.
  intros Hq t r t'. unfold external.
  destruct answer; intros [= <- <-]; exists [ev]; cbn; now rewrite Hq.
Qed.

Lemma emits_only_bind (m : M A) (k : A -> M B) :
  emits_only q m -> (forall a, emits_only q (k a)) ->
  emits_only q (bind m k).
Proof.
  intros Hm Hk t r t'. unfold bind.
  destruct (m t) as [[a|e] t0] eqn:E.
  - intros H.
    destruct (Hm _ _ _ E) as (added1 & -> & F1).
    destruct (Hk a _ _ _ H) as (added2 & -> & F2).
    exists (added1 ++ added2)%list.
    now rewrite app_assoc, forallb_app, F1, F2.
  - intros [= <- <-]. exact (Hm _ _ _ E).
Qed.

Lemma emits_only_try_catch (m : M A) (handler : error -> M A) :
  emits_only q m -> (forall e, emits_only q (handler e)) ->
  emits_only q (try_catch m handler).
Proof.
  intros Hm Hh t r t'. unfold try_catch.
  destruct (m t) as [[a|e] t0] eqn:E.
  - intros [= <- <-]. exact (Hm _ _ _ E).
  - intros H.
    destruct (Hm _ _ _ E) as (added1 & -> & F1).
    destruct (Hh e _ _ _ H) as (added2 & -> & F2).
    exists (added1 ++ added2)%list.
    now rewrite app_assoc, forallb_app, F1, F2.
Qed.

Lemma emits_only_group (title : string) (fn : M A) :
  q (GroupStart title) = true -> q GroupEnd = true ->
  emits_only q fn -> emits_only q (core_group title fn).
Proof.
  intros Hs He Hm t r t'. unfold core_group.
  destruct (fn (t ++ [GroupStart title])%list) as [r0 t0] eqn:E.
  intros [= <- <-].
  destruct (Hm _ _ _ E) as (added & -> & F).
  exists (GroupStart title :: added ++ [GroupEnd])%list. split.
  - now rewrite <- !app_assoc.
  - cbn [forallb]. rewrite forallb_app, Hs, F. cbn. now rewrite He.
Qed.

End EmitsOnly.

Lemma emits_only_emit (q : event -> bool) (ev : event) :
  q ev = true -> emits_only q (emit ev).
Proof.
  intros Hq t r t' [= <- <-]. exists [ev]. cbn. now rewrite Hq.
Qed.

Lemma emits_only_weaken {A} (q q' : event -> bool) (m : M A) :
  (forall e, q e = true -> q' e = true) ->
  emits_only q m -> emits_only q' m.
Proof.
  intros Hqq Hm t r t' H.
  destruct (Hm _ _ _ H) as (added & -> & F).
  exists added. split; [reflexivity|].
  rewrite forallb_forall in *. auto.
Qed.

(** One step of a proof that a computation emits only events in [q]. *)
Ltac emits_step :=
  first
    [ apply emits_only_ret
    | apply emits_only_throw
    | apply emits_only_lift
    | apply emits_only_emit; reflexivity
    | apply emits_only_external; reflexivity
    | apply emits_only_group; [reflexivity | reflexivity |]
    | apply emits_only_bind; [|intros ?]
    | match goal with
      | |- emits_only _ (match ?x with _ => _ end) => destruct x
      | |- emits_only _ (let (_, _) := ?x in _) => destruct x
      end ].

Lemma cachedPackage_emits (h : Host) (channel version debUrl : string) :
  emits_only (fun e => locator_event e && not_http e)
    (cachedPackage h channel version debUrl).
Proof.
  unfold cachedPackage. repeat emits_step.
Qed.

(** Package location adds to the trace only the redirect request, tool cache
    calls and log lines: it runs no process, reads no file and sets no
    output, whatever the host answers and whether it returns or throws. *)
Theorem downloadOzDeb_emits (h : Host) (channel version : string) :
  emits_only locator_event (downloadOzDeb h channel version).
Proof.
  unfold downloadOzDeb.
  destruct (negb (process_platform h =? "linux")); [apply emits_only_throw|].
  apply emits_only_bind; [apply emits_only_lift|].
  intros [arch debArch]. apply emits_only_bind.
  - unfold resolveVersion, resolveLatest. repeat emits_step.
  - intros [debUrl resolved].
    apply emits_only_weaken with (2 := cachedPackage_emits h channel resolved debUrl).
    intros e He. now apply andb_prop in He.
Qed.

Lemma downloadOzDeb_emits_witness :
  exists added,
    snd (downloadOzDeb Sample.runner "stable" "latest" []) = added
    /\ forallb locator_event added = true.
Proof.
  destruct (downloadOzDeb_emits Sample.runner "stable" "latest" []
              (fst (downloadOzDeb Sample.runner "stable" "latest" []))
              (snd (downloadOzDeb Sample.runner "stable" "latest" []))
              eq_refl) as (added & Hadd & Hall).
  exists added. split; [exact Hadd | exact Hall].
Defined.



(** * Installation *)

(** [installOz] stops at the first failure and always closes its log group.
    From the outcome of package location inside the group: when package
    location throws, that error is thrown and no command is run; when it
    returns a path, [sudo dpkg -i] is run on exactly that path, and
    [sudo apt-get -f install] is run only if [dpkg] succeeded. *)
Theorem installOz_stops_at_first_failure
    (h : Host) (channel version : string) (t located : trace)
    (r : result string) :
  downloadOzDeb h channel version (t ++ [GroupStart "Installing Oz"])%list
  = (r, located) ->
  installOz h channel version t
  = match r with
    | Err e => (Err e, (located ++ [GroupEnd])%list)
    | Ok ozDeb =>
        let dpkg := ExecExec "sudo" ["dpkg"; "-i"; ozDeb] in
        let apt := ExecExec "sudo" ["apt-get"; "-f"; "install"] in
        match exec_exec h "sudo" ["dpkg"; "-i"; ozDeb] with
        | inl msg =>
            (Err (ExternalFailure msg), (located ++ [dpkg; GroupEnd])%list)
        | inr _ =>
            match exec_exec h "sudo" ["apt-get"; "-f"; "install"] with
            | inl msg =>
                (Err (ExternalFailure msg),
                 (located ++ [dpkg; apt; GroupEnd])%list)
            | inr _ => (Ok tt, (located ++ [dpkg; apt; GroupEnd])%list)
            end
        end
    end.
Proof.
  intros Hd. unfold installOz, core_group, bind. rewrite Hd.
  destruct r as [ozDeb|e]; [|reflexivity].
  unfold external, ret. cbv zeta.
  destruct (exec_exec h "sudo" ["dpkg"; "-i"; ozDeb]);
    [now rewrite <- !app_assoc|].
  destruct (exec_exec h "sudo" ["apt-get"; "-f"; "install"]);
    now rewrite <- !app_assoc.
Qed.

Lemma installOz_stops_at_first_failure_witness :
  installOz (Sample.on_machine Sample.runner "win32" "x64") "stable" "latest"
            []
  = (Err (UnsupportedPlatform "win32"),
     [GroupStart "Installing Oz"; GroupEnd])
  /\ installOz (Sample.cached Sample.runner "/opt/c") "stable" "1.2.3" []
     = (Ok tt,
        [GroupStart "Installing Oz"; TcFind "oz" "stable-v1.2.3";
         CoreDebug "Using cached .deb package";
         ExecExec "sudo" ["dpkg"; "-i"; "/opt/c/oz.deb"];
         ExecExec "sudo" ["apt-get"; "-f"; "install"]; GroupEnd]).
Proof.
  split.
  - apply (installOz_stops_at_first_failure
             (Sample.on_machine Sample.runner "win32" "x64") "stable"
             "latest" [] [GroupStart "Installing Oz"]
             (Err (UnsupportedPlatform "win32"))).
    reflexivity.
  - apply (installOz_stops_at_first_failure
             (Sample.cached Sample.runner "/opt/c") "stable" "1.2.3" []
             [GroupStart "Installing Oz"; TcFind "oz" "stable-v1.2.3";
              CoreDebug "Using cached .deb package"]
             (Ok "/opt/c/oz.deb")).
    reflexivity.
Defined.

(** When [installOz] returns, package location returned a path inside the
    log group and both commands were run, in order, [dpkg] on that path; the
    group was closed last. *)
Theorem installOz_success
    (h : Host) (channel version : string) (t t' : trace) :
  installOz h channel version t = (Ok tt, t') ->
  exists ozDeb located,
    downloadOzDeb h channel version (t ++ [GroupStart "Installing Oz"])%list
    = (Ok ozDeb, located)
    /\ t' = (located ++ [ExecExec "sudo" ["dpkg"; "-i"; ozDeb];
                         ExecExec "sudo" ["apt-get"; "-f"; "install"];
                         GroupEnd])%list.
Proof.
  destruct (downloadOzDeb h channel version
              (t ++ [GroupStart "Installing Oz"])%list) as [r located] eqn:Hd.
  rewrite (installOz_stops_at_first_failure h channel version t located r Hd).
  destruct r as [ozDeb|e]; [|discriminate].
  cbv zeta.
  destruct (exec_exec h "sudo" ["dpkg"; "-i"; ozDeb]); [discriminate|].
  destruct (exec_exec h "sudo" ["apt-get"; "-f"; "install"]); [discriminate|].
  intros [= <-]. now exists ozDeb, located.
Qed.

Lemma installOz_success_witness :
  exists ozDeb located,
    downloadOzDeb Sample.runner "stable" "1.2.3" [GroupStart "Installing Oz"]
    = (Ok ozDeb, located)
    /\ snd (installOz Sample.runner "stable" "1.2.3" [])
       = (located ++ [ExecExec "sudo" ["dpkg"; "-i"; ozDeb];
                      ExecExec "sudo" ["apt-get"; "-f"; "install"];
                      GroupEnd])%list.
Proof.
  apply (installOz_success Sample.runner "stable" "1.2.3" [] _ eq_refl).
Defined.

Lemma installOz_emits (h : Host) (channel version : string) :
  emits_only install_event (installOz h channel version).
Proof.
  unfold installOz.
  apply emits_only_group; [reflexivity | reflexivity |].
  apply emits_only_bind.
  - apply emits_only_weaken with (2 := downloadOzDeb_emits h channel version).
    intros e He. destruct e; try discriminate; reflexivity.
  - intros ozDeb. repeat emits_step.
Qed.

(** * The log dump *)

(** [logOzLogFile] never throws.  It asks once whether the log file exists,
    at [warpLogPath]; a missing file gives one warning that names the path,
    and an existing file is read inside a log group, its contents logged, or
    a warning logged when reading fails. *)
Theorem logOzLogFile_never_fatal (h : Host) (channel : string) (t : trace) :
  let path := warpLogPath h channel in
  logOzLogFile h channel t
  = (Ok tt,
     (t ++ FsExistsSync path
        :: (if fs_existsSync h path then
              [GroupStart "Warp Logs"; FsReadFileSync path;
               match fs_readFileSync h path with
               | inr logContents => CoreInfo logContents
               | inl error =>
                   CoreWarning ("Failed to read warp.log: " ++ error)
               end;
               GroupEnd]
            else [CoreWarning ("warp.log not found at " ++ path)]))%list).
Proof.
  unfold logOzLogFile. cbv zeta. fold (warpLogPath h channel).
  unfold bind, external, core_group, emit.
  destruct (fs_existsSync h (warpLogPath h channel)).
  - destruct (fs_readFileSync h (warpLogPath h channel));
      now rewrite <- !app_assoc.
  - now rewrite <- !app_assoc.
Qed.

(** The state directory of the log file is [XDG_STATE_DIR] when that is set
    to a non-empty value; unset or set to the empty string, it is
    [.local/state] under the home directory. *)
Theorem warpLogPath_state_dir (h : Host) (channel : string) :
  exists directory fileName,
    (channel = "stable" ->
     directory = "warp-terminal" /\ fileName = "warp.log")
    /\ (channel <> "stable" ->
        directory = "warp-terminal-" ++ channel
        /\ fileName = "warp_" ++ channel ++ ".log")
    /\ (forall dir,
          process_env_XDG_STATE_DIR h = Some dir -> dir <> "" ->
          warpLogPath h channel = path_join h [dir; directory; fileName])
    /\ (process_env_XDG_STATE_DIR h = None
        \/ process_env_XDG_STATE_DIR h = Some "" ->
        warpLogPath h channel
        = path_join h [path_join h [os_homedir h; ".local"; "state"];
                       directory; fileName]).
Proof.
  exists ("warp-terminal" ++ (if channel =? "stable" then "" else "-" ++ channel)).
  exists (if channel =? "stable" then "warp.log"
          else "warp_" ++ channel ++ ".log").
  split; [intros ->; now split|].
  split; [intros Hc; apply String.eqb_neq in Hc; rewrite Hc; now split|].
  unfold warpLogPath. split.
  - intros dir -> Hd. destruct dir; [contradiction | reflexivity].
  - intros [-> | ->]; reflexivity.
Qed.

Lemma warpLogPath_state_dir_witness :
  exists directory fileName,
    warpLogPath Sample.runner "preview"
    = Sample.join [Sample.join ["/home/runner"; ".local"; "state"];
                   directory; fileName]
    /\ directory = "warp-terminal-preview"
    /\ fileName = "warp_preview.log".
Proof.
  destruct (warpLogPath_state_dir Sample.runner "preview")
    as (directory & fileName & _ & Hname & _ & Hhome).
  exists directory, fileName.
  split; [apply Hhome; now left|].
  apply Hname. discriminate.
Defined.

Lemma logOzLogFile_emits (h : Host) (channel : string) :
  emits_only diagnostic_event (logOzLogFile h channel).
Proof.
  intros t r t'. rewrite logOzLogFile_never_fatal. cbv zeta.
  intros [= <- <-]. eexists. split; [reflexivity|].
  destruct (fs_existsSync h (warpLogPath h channel)); [|reflexivity].
  destruct (fs_readFileSync h (warpLogPath h channel)); reflexivity.
Qed.

(** * The run as a whole *)

Lemma runChecked_steps
    (h : Host) (channel command : string) (t installed : trace)
    (r : result unit) :
  resolveCommand channel = Ok command ->
  installOz h channel (core_getInput h "oz_version") t = (r, installed) ->
  let args := buildArgs (actionOptions h) in
  let key := core_getInput h "warp_api_key" in
  let invoked := (installed ++ [ExecGetExecOutput command args key])%list in
  runChecked h channel (core_getInput h "prompt")
    (core_getInput h "saved_prompt") (core_getInput h "skill")
    (core_getInput h "model") (core_getInput h "name")
    (core_getInput h "mcp") key t
  = match r with
    | Err e => (Err e, installed)
    | Ok _ =>
        match exec_getExecOutput h command args key with
        | inr stdout =>
            (Ok tt, (invoked ++ [SetOutput "agent_output" stdout])%list)
        | inl msg =>
            (Err (ExternalFailure msg),
             snd (logOzLogFile h channel invoked))
        end
    end.
Proof.
  intros Hc Hi args key invoked.
  unfold runChecked, bind at 1, lift. rewrite Hc.
  unfold bind at 1. rewrite Hi.
  destruct r as [[]|e]; [|reflexivity].
  fold (actionOptions h). fold args.
  unfold bind, try_catch, external.
  destruct (exec_getExecOutput h command args key) as [msg|stdout].
  - fold invoked. rewrite logOzLogFile_never_fatal. reflexivity.
  - reflexivity.
Qed.

Lemma runAgent_checked (h : Host) (t : trace) (r : result unit) (t' : trace) :
  runAgent h t = (r, t') ->
  (forall msg, r <> Err (MissingRequiredInput msg)) ->
  runChecked h (core_getInput h "oz_channel") (core_getInput h "prompt")
    (core_getInput h "saved_prompt") (core_getInput h "skill")
    (core_getInput h "model") (core_getInput h "name")
    (core_getInput h "mcp") (core_getInput h "warp_api_key") t
  = (r, t').
Proof.
  unfold runAgent. cbv zeta.
  destruct (negb (JS.truthy (core_getInput h "prompt"))
            && negb (JS.truthy (core_getInput h "saved_prompt"))
            && negb (JS.truthy (core_getInput h "skill"))).
  - intros [= <- <-] H. now contradiction (H _ eq_refl).
  - destruct (negb (JS.truthy (core_getInput h "warp_api_key"))).
    + intros [= <- <-] H. now contradiction (H _ eq_refl).
    + trivial.
Qed.

(** When [runAgent] returns, every step before took place, in this order:
    the channel named a command, the installation returned, the command
    was then invoked once with the arguments [buildArgs] makes of the inputs
    and with the API key, and its captured output was set as
    [agent_output], the last effect of the run. *)
Theorem runAgent_success (h : Host) (t t' : trace) :
  runAgent h t = (Ok tt, t') ->
  exists command installed stdout,
    resolveCommand (core_getInput h "oz_channel") = Ok command
    /\ installOz h (core_getInput h "oz_channel")
                 (core_getInput h "oz_version") t
       = (Ok tt, installed)
    /\ exec_getExecOutput h command (buildArgs (actionOptions h))
                          (core_getInput h "warp_api_key")
       = inr stdout
    /\ t' = (installed
             ++ [ExecGetExecOutput command (buildArgs (actionOptions h))
                                   (core_getInput h "warp_api_key");
                 SetOutput "agent_output" stdout])%list.
Proof.
  intros Hrun.
  apply runAgent_checked in Hrun; [|intros msg; discriminate].
  destruct (resolveCommand (core_getInput h "oz_channel")) as [command|e] eqn:Hc.
  2:{ unfold runChecked, bind, lift in Hrun. rewrite Hc in Hrun. discriminate. }
  destruct (installOz h (core_getInput h "oz_channel")
              (core_getInput h "oz_version") t) as [r installed] eqn:Hi.
  rewrite (runChecked_steps h _ command t installed r Hc Hi) in Hrun.
  cbv zeta in Hrun.
  destruct r as [[]|e]; [|discriminate].
  destruct (exec_getExecOutput h command (buildArgs (actionOptions h))
              (core_getInput h "warp_api_key")) as [msg|stdout] eqn:He;
    [discriminate|].
  injection Hrun as <-.
  exists command, installed, stdout.
  rewrite <- app_assoc. auto.
Qed.

Lemma runAgent_success_witness :
  exists command installed stdout,
    resolveCommand (core_getInput Sample.runner "oz_channel") = Ok command
    /\ installOz Sample.runner (core_getInput Sample.runner "oz_channel")
                 (core_getInput Sample.runner "oz_version") []
       = (Ok tt, installed)
    /\ exec_getExecOutput Sample.runner command
         (buildArgs (actionOptions Sample.runner))
         (core_getInput Sample.runner "warp_api_key")
       = inr stdout
    /\ snd (runAgent Sample.runner [])
       = (installed
          ++ [ExecGetExecOutput command
                (buildArgs (actionOptions Sample.runner))
                (core_getInput Sample.runner "warp_api_key");
              SetOutput "agent_output" stdout])%list.
Proof.
  apply (runAgent_success Sample.runner [] _ eq_refl).
Defined.

(** When the installation returned and the invocation of the agent fails,
    [runAgent] throws the error of the invocation itself: the log dump that
    precedes the re-throw looks for the log file and adds only file-system
    and log events, and [agent_output] is not set. *)
Theorem runAgent_invocation_failure
    (h : Host) (command msg : string) (t installed : trace) :
  core_getInput h "prompt" <> "" \/ core_getInput h "saved_prompt" <> ""
  \/ core_getInput h "skill" <> "" ->
  core_getInput h "warp_api_key" <> "" ->
  resolveCommand (core_getInput h "oz_channel") = Ok command ->
  installOz h (core_getInput h "oz_channel") (core_getInput h "oz_version") t
  = (Ok tt, installed) ->
  exec_getExecOutput h command (buildArgs (actionOptions h))
                     (core_getInput h "warp_api_key")
  = inl msg ->
  exists dump,
    runAgent h t
    = (Err (ExternalFailure msg),
       (installed
        ++ ExecGetExecOutput command (buildArgs (actionOptions h))
                             (core_getInput h "warp_api_key")
        :: FsExistsSync (warpLogPath h (core_getInput h "oz_channel"))
        :: dump)%list)
    /\ forallb diagnostic_event dump = true.
Proof.
  intros Hone Hkey Hc Hi He.
  assert (Hrun : runAgent h t
                 = runChecked h (core_getInput h "oz_channel")
                     (core_getInput h "prompt")
                     (core_getInput h "saved_prompt")
                     (core_getInput h "skill") (core_getInput h "model")
                     (core_getInput h "name") (core_getInput h "mcp")
                     (core_getInput h "warp_api_key") t).
  { unfold runAgent. cbv zeta.
    destruct (core_getInput h "warp_api_key"); [contradiction|].
    destruct (core_getInput h "prompt"), (core_getInput h "saved_prompt"),
      (core_getInput h "skill"); try reflexivity.
    destruct Hone as [H|[H|H]]; contradiction. }
  rewrite Hrun.
  rewrite (runChecked_steps h _ command t installed (Ok tt) Hc Hi).
  cbv zeta. rewrite He, logOzLogFile_never_fatal. cbv zeta. cbn [snd].
  eexists. split.
  - rewrite <- app_assoc. reflexivity.
  - destruct (fs_existsSync h _); [|reflexivity].
    destruct (fs_readFileSync h _); reflexivity.
Qed.

Lemma runAgent_invocation_failure_witness :
  exists dump,
    runAgent Hosts.crashing []
    = (Err (ExternalFailure
              "The process '/usr/bin/oz' failed with exit code 1"),
       ([GroupStart "Installing Oz"; TcFind "oz" "stable-v1.2.3";
         CoreDebug "Using cached .deb package";
         ExecExec "sudo" ["dpkg"; "-i"; "/opt/c/oz.deb"];
         ExecExec "sudo" ["apt-get"; "-f"; "install"]; GroupEnd]
        ++ ExecGetExecOutput "oz"
             ["agent"; "run"; "--prompt"; "fix the bug"; "--sandboxed"] "wk-1"
        :: FsExistsSync "/state/warp-terminal/warp.log" :: dump)%list)
    /\ forallb diagnostic_event dump = true.
Proof.
  destruct (runAgent_invocation_failure Hosts.crashing "oz"
              "The process '/usr/bin/oz' failed with exit code 1" []
              [GroupStart "Installing Oz"; TcFind "oz" "stable-v1.2.3";
               CoreDebug "Using cached .deb package";
               ExecExec "sudo" ["dpkg"; "-i"; "/opt/c/oz.deb"];
               ExecExec "sudo" ["apt-get"; "-f"; "install"]; GroupEnd])
    as (dump & Hrun & Hall).
  - left. vm_compute. discriminate.
  - vm_compute. discriminate.
  - vm_compute. reflexivity.
  - vm_compute. reflexivity.
  - vm_compute. reflexivity.
  - exists dump. split; [|exact Hall].
    rewrite Hrun. vm_compute. reflexivity.
Defined.

(** A run that throws never sets [agent_output]: whatever the error, the
    trace it started from is kept and no output is among the events
    added. *)
Theorem runAgent_failure_sets_no_output
    (h : Host) (t t' : trace) (e : error) :
  runAgent h t = (Err e, t') ->
  exists added, t' = (t ++ added)%list /\ forallb not_output added = true.
Proof.
  unfold runAgent. cbv zeta.
  assert (Hnil : exists added : trace,
             t = (t ++ added)%list /\ forallb not_output added = true)
    by (exists []; now rewrite app_nil_r).
  destruct (negb (JS.truthy (core_getInput h "prompt"))
            && negb (JS.truthy (core_getInput h "saved_prompt"))
            && negb (JS.truthy (core_getInput h "skill")));
    [intros [= _ <-]; exact Hnil|].
  destruct (negb (JS.truthy (core_getInput h "warp_api_key")));
    [intros [= _ <-]; exact Hnil|].
  unfold runChecked.
  unfold bind at 1, lift.
  destruct (resolveCommand (core_getInput h "oz_channel")) as [command|e0];
    [|intros [= _ <-]; exact Hnil].
  unfold bind at 1.
  destruct (installOz h (core_getInput h "oz_channel")
              (core_getInput h "oz_version") t) as [[[]|e1] installed] eqn:Hi.
  2:{ intros [= _ <-].
      destruct (installOz_emits h _ _ _ _ _ Hi) as (added & -> & F).
      exists added. split; [reflexivity|].
      rewrite forallb_forall in *. intros ev Hev. specialize (F ev Hev).
      destruct ev; try discriminate; reflexivity. }
  destruct (installOz_emits h _ _ _ _ _ Hi) as (added & -> & F).
  unfold bind, try_catch, external.
  destruct (exec_getExecOutput h command _ _) as [msg|stdout];
    [|discriminate].
  rewrite logOzLogFile_never_fatal. cbv zeta. unfold throw.
  intros [= _ <-].
  eexists. split; [rewrite <- !app_assoc; reflexivity|].
  rewrite forallb_app. apply andb_true_intro. split.
  - rewrite forallb_forall in *. intros ev Hev. specialize (F ev Hev).
    destruct ev; try discriminate; reflexivity.
  - cbn [app forallb not_output andb].
    destruct (fs_existsSync h _); [|reflexivity].
    destruct (fs_readFileSync h _); reflexivity.
Qed.

Lemma runAgent_failure_sets_no_output_witness :
  exists added,
    snd (runAgent (Sample.on_machine Sample.runner "linux" "ia32") [])
    = added
    /\ forallb not_output added = true.
Proof.
  destruct (runAgent_failure_sets_no_output
              (Sample.on_machine Sample.runner "linux" "ia32") []
              [GroupStart "Installing Oz"; GroupEnd]
              (UnsupportedArchitecture "ia32") eq_refl)
    as (added & Hadd & Hall).
  exists added. split; [|exact Hall].
  cbn [app] in Hadd. rewrite <- Hadd. reflexivity.
Defined.

(** On a host that is not supported, a run whose inputs pass the checks and
    whose channel names a command opens the installation group, fails there
    and closes it: nothing is requested, downloaded, installed or invoked.
    The error is the unsupported-platform error off [linux] and the
    unsupported-architecture error on [linux]. *)
Theorem runAgent_unsupported_host (h : Host) (command : string) (t : trace) :
  core_getInput h "prompt" <> "" \/ core_getInput h "saved_prompt" <> ""
  \/ core_getInput h "skill" <> "" ->
  core_getInput h "warp_api_key" <> "" ->
  resolveCommand (core_getInput h "oz_channel") = Ok command ->
  process_platform h <> "linux"
  \/ (process_arch h <> "x64" /\ process_arch h <> "arm64") ->
  runAgent h t
  = (Err (if process_platform h =? "linux"
          then UnsupportedArchitecture (process_arch h)
          else UnsupportedPlatform (process_platform h)),
     (t ++ [GroupStart "Installing Oz"; GroupEnd])%list).
Proof.
  intros Hone Hkey Hc Hhost.
  assert (Hd : forall channel version t0,
             downloadOzDeb h channel version t0
             = (Err (if process_platform h =? "linux"
                     then UnsupportedArchitecture (process_arch h)
                     else UnsupportedPlatform (process_platform h)), t0)).
  { intros channel version t0. unfold downloadOzDeb.
    destruct (process_platform h =? "linux") eqn:Ep; [|reflexivity].
    apply String.eqb_eq in Ep.
    destruct Hhost as [Hp|[H1 H2]]; [contradiction|].
    apply String.eqb_neq in H1, H2.
    cbn [negb]. unfold bind, lift, hostArch. now rewrite H1, H2. }
  unfold runAgent. cbv zeta.
  destruct (core_getInput h "warp_api_key"); [contradiction|].
  assert (Hchecks : negb (JS.truthy (core_getInput h "prompt"))
                    && negb (JS.truthy (core_getInput h "saved_prompt"))
                    && negb (JS.truthy (core_getInput h "skill")) = false).
  { destruct (core_getInput h "prompt"), (core_getInput h "saved_prompt"),
      (core_getInput h "skill"); try reflexivity.
    destruct Hone as [H|[H|H]]; contradiction. }
  rewrite Hchecks. cbn [JS.truthy negb].
  unfold runChecked, bind at 1, lift. rewrite Hc.
  unfold bind at 1.
  rewrite (installOz_stops_at_first_failure h _ _ t _ _ (Hd _ _ _)).
  now rewrite <- app_assoc.
Qed.

Lemma runAgent_unsupported_host_witness :
  runAgent (Sample.on_machine Sample.runner "darwin" "arm64") []
  = (Err (UnsupportedPlatform "darwin"),
     [GroupStart "Installing Oz"; GroupEnd]).
Proof.
  apply (runAgent_unsupported_host
           (Sample.on_machine Sample.runner "darwin" "arm64") "oz" []).
  - left. discriminate.
  - discriminate.
  - reflexivity.
  - left. discriminate.
Defined.

(** * The entry point *)

Lemma no_set_failed_in_agent_events (t : trace) :
  existsb is_set_failed (map AgentEvent t) = false.
Proof.
  induction t as [|e t IH]; [reflexivity | exact IH].
Qed.

Lemma no_set_output_when_none_emitted (t : trace) :
  forallb not_output t = true ->
  existsb is_set_output (map AgentEvent t) = false.
Proof.
  induction t as [|e t IH]; [reflexivity|].
  cbn [forallb map existsb]. intros H.
  apply andb_prop in H as [He Ht]. rewrite (IH Ht).
  destruct e; try reflexivity. discriminate.
Qed.

(** Every run of the action ends in exactly one of two ways: it sets
    [agent_output], or it is marked failed; never both and never neither. *)
Theorem main_output_or_failure (h : Host) :
  existsb is_set_failed (main h) = negb (existsb is_set_output (main h)).
Proof.
  unfold main.
  destruct (runAgent h []) as [[[]|e] t] eqn:Hrun.
  - rewrite no_set_failed_in_agent_events.
    destruct (runAgent_success h [] t Hrun)
      as (command & installed & stdout & _ & _ & _ & ->).
    rewrite map_app, existsb_app. cbn. now rewrite orb_true_r.
  - destruct (runAgent_failure_sets_no_output h [] t e Hrun)
      as (added & -> & Hnone).
    cbn [app]. rewrite !existsb_app.
    rewrite no_set_failed_in_agent_events.
    now rewrite (no_set_output_when_none_emitted added Hnone).
Qed.

(** The failure reason the action reports for the inputs it rejects: with
    no prompt, saved prompt or skill, with no API key, and with an
    unsupported channel, marking the run failed with the message of the
    check is the only thing the action does. *)
Theorem main_rejected_inputs (h : Host) :
  let some_prompt :=
    core_getInput h "prompt" <> "" \/ core_getInput h "saved_prompt" <> ""
    \/ core_getInput h "skill" <> "" in
  (~ some_prompt ->
   main h = [CoreSetFailed
               "Either `prompt`, `saved_prompt`, or `skill` must be provided"])
  /\ (some_prompt -> core_getInput h "warp_api_key" = "" ->
      main h = [CoreSetFailed "`warp_api_key` must be provided."])
  /\ (some_prompt -> core_getInput h "warp_api_key" <> "" ->
      core_getInput h "oz_channel" <> "stable" ->
      core_getInput h "oz_channel" <> "preview" ->
      main h = [CoreSetFailed
                  ("Unsupported channel " ++ core_getInput h "oz_channel")]).
Proof.
  intros some_prompt. unfold main, runAgent. cbv zeta.
  assert (Hsome : some_prompt ->
                  negb (JS.truthy (core_getInput h "prompt"))
                  && negb (JS.truthy (core_getInput h "saved_prompt"))
                  && negb (JS.truthy (core_getInput h "skill")) = false).
  { unfold some_prompt.
    destruct (core_getInput h "prompt"), (core_getInput h "saved_prompt"),
      (core_getInput h "skill"); try reflexivity.
    intros [H|[H|H]]; contradiction. }
  split; [|split].
  - intros Hnone. unfold some_prompt in Hnone.
    destruct (core_getInput h "prompt"), (core_getInput h "saved_prompt"),
      (core_getInput h "skill"); try reflexivity;
      exfalso; apply Hnone; auto; (left + (right; left) + (right; right));
      discriminate.
  - intros Hp Hk. rewrite (Hsome Hp), Hk. reflexivity.
  - intros Hp Hk Hs Hv. rewrite (Hsome Hp).
    destruct (core_getInput h "warp_api_key"); [contradiction|].
    cbn [JS.truthy negb].
    apply String.eqb_neq in Hs, Hv.
    unfold runChecked, bind, lift, resolveCommand. now rewrite Hs, Hv.
Qed.

Lemma main_rejected_inputs_witness :
  main (Sample.with_inputs Sample.runner (fun _ => ""))
  = [CoreSetFailed
       "Either `prompt`, `saved_prompt`, or `skill` must be provided"]
  /\ main (Sample.with_inputs Sample.runner
             (fun name => if name =? "oz_channel" then "beta"
                          else Sample.inputs name))
     = [CoreSetFailed "Unsupported channel beta"].
Proof.
  split.
  - apply (main_rejected_inputs
             (Sample.with_inputs Sample.runner (fun _ => ""))).
    intros [H|[H|H]]; now apply H.
  - apply (main_rejected_inputs
             (Sample.with_inputs Sample.runner
                (fun name => if name =? "oz_channel" then "beta"
                             else Sample.inputs name)));
      [left|..]; discriminate.
Defined.
